(** * nearest_airport.py: a shallow embedding and its verified properties

    The development follows the layout of [src/nearest_airport.py]:

    - Python values the module works on (exceptions, [str], [float]);
    - the parts of the CPython library the module calls and that can be
      executed here ([str.strip], [str.lower], [float(str)], [csv.DictReader]);
    - the [math] module, taken as an interface since its transcendental
      functions are the platform's;
    - [haversine_km], [_parse_airports_csv], the cache manager
      [load_airports_once] over an explicit world (process cache, parquet
      file, network, clock), [nearest_airport] and [get_nearest_airport];
    - the properties.

    Python [str] is modelled by [string] read as a sequence of code points
    below 256; Python [float] is IEEE binary64, modelled by the primitive
    type [float]. *)

From Stdlib Require Import ZArith NArith Floats Ascii String List Bool Lia.
From stdpp Require Import base option list strings gmap.

Local Open Scope string_scope.
Local Open Scope list_scope.

(* ================================================================== *)
(** * Exceptions and results *)

(** The exception classes that occur in the module and in the library
    calls it makes. *)
Inductive exn : Type :=
| ValueError
| OverflowError
| TypeError
| csv_Error
| RequestException
| OSError.

(** A computation that may raise. *)
Inductive result (A : Type) : Type :=
| Ok (a : A)
| Raise (e : exn).
Arguments Ok {A} a.
Arguments Raise {A} e.

Module Res.
Definition bind {A B} (m : result A) (k : A -> result B) : result B :=
  match m with
  | Ok a => k a
  | Raise e => Raise e
  end.

(** [try: m except e: h] for the handlers of the module, which all have
    the shape [except E: ...] for an exception class [E]. *)
Definition try_except {A} (m : result A) (catches : exn -> bool)
           (handler : result A) : result A :=
  match m with
  | Ok a => Ok a
  | Raise e => if catches e then handler else Raise e
  end.

Definition is_ok {A} (m : result A) : bool :=
  match m with Ok _ => true | Raise _ => false end.
End Res.

Declare Scope result_scope.
Delimit Scope result_scope with result.
Notation "'let!' x ':=' m 'in' k" := (Res.bind m (fun x => k))
  (at level 10, x name, m at level 100, k at level 200) : result_scope.

(** The handlers of the module: [except ValueError],
    [except requests.RequestException] and [except Exception]. *)
Definition except_ValueError (e : exn) : bool :=
  match e with ValueError => true | _ => false end.
Definition except_RequestException (e : exn) : bool :=
  match e with RequestException => true | _ => false end.
Definition except_Exception (e : exn) : bool := true.

(* ================================================================== *)
(** * Python strings *)

Module Str.
Definition code (c : ascii) : N := N_of_ascii c.

(** [str.isspace] on one code point below 256. *)
Definition isspace (c : ascii) : bool :=
  let n := code c in
  ((9 <=? n) && (n <=? 13) || (28 <=? n) && (n <=? 31)
   || (n =? 32) || (n =? 133) || (n =? 160))%N.

Fixpoint lstrip (s : string) : string :=
  match s with
  | EmptyString => EmptyString
  | String c r => if isspace c then lstrip r else s
  end.

Fixpoint rstrip (s : string) : string :=
  match s with
  | EmptyString => EmptyString
  | String c r =>
      match rstrip r with
      | EmptyString => if isspace c then EmptyString else String c EmptyString
      | r' => String c r'
      end
  end.

(** [s.strip()] *)
Definition strip (s : string) : string := rstrip (lstrip s).

(** [c.lower()] for a code point below 256: the ASCII capitals and the
    Latin-1 capitals 0xC0..0xDE without the multiplication sign 0xD7. *)
Definition lower_char (c : ascii) : ascii :=
  let n := code c in
  if ((65 <=? n) && (n <=? 90)
      || (192 <=? n) && (n <=? 222) && negb (n =? 215))%N
  then ascii_of_N (n + 32) else c.

(** [s.lower()] *)
Fixpoint lower (s : string) : string :=
  match s with
  | EmptyString => EmptyString
  | String c r => String (lower_char c) (lower r)
  end.

(** Truth value of a [str]: non-empty. *)
Definition truthy (s : string) : bool :=
  match s with EmptyString => false | String _ _ => true end.

(** [x or ""] for an [Optional[str]]. *)
Definition or_empty (x : option string) : string :=
  match x with
  | Some s => s
  | None => ""
  end.

(** Truth value of an [Optional[str]]. *)
Definition opt_truthy (x : option string) : bool := truthy (or_empty x).
End Str.

(* ================================================================== *)
(** * [float(s)] for a [str]

    CPython's conversion (floatobject.c, pystrtod.c): code points from 127
    on are replaced by a blank when they are white space and by [?]
    otherwise, C white space is removed at both ends, single underscores
    between digits are dropped, and the rest must be, after an optional
    sign, [inf], [infinity] or [nan] in any case, or a decimal numeral with
    optional fraction and exponent. The numeral is rounded to the nearest
    binary64 value, ties to even; too large a value gives an infinity, too
    small a value a zero. Anything else raises [ValueError]. *)

Module PyFloat.
Import Str.

Definition transform (c : ascii) : ascii :=
  if (code c <? 127)%N then c
  else if isspace c then " "%char else "?"%char.

(** [Py_ISSPACE] *)
Definition c_isspace (c : ascii) : bool :=
  let n := code c in ((9 <=? n) && (n <=? 13) || (n =? 32))%N.

Definition isdigit (c : ascii) : bool :=
  let n := code c in ((48 <=? n) && (n <=? 57))%N.

Definition is_char (c : ascii) (n : N) : bool := (code c =? n)%N.

Fixpoint lskip (s : list ascii) : list ascii :=
  match s with
  | c :: r => if c_isspace c then lskip r else s
  | [] => []
  end.

(** The trailing loop [while (s < last - 1 && Py_ISSPACE(last[-1]))]
    never removes the first character; the leading loop has already
    made it a non-space. *)
Definition strip_c (s : list ascii) : list ascii :=
  rev (lskip (rev (lskip s))).

(** [_Py_string_to_number_with_underscores]: an underscore must follow a
    digit and precede a digit. [prev] is the previous character. *)
Fixpoint drop_underscores (prev : ascii) (s : list ascii)
  : option (list ascii) :=
  match s with
  | [] => if is_char prev 95 then None else Some []
  | c :: r =>
      if is_char c 95 then
        if isdigit prev then drop_underscores c r else None
      else if is_char prev 95 && negb (isdigit c) then None
      else option_map (cons c) (drop_underscores c r)
  end.

Fixpoint span_digits (s : list ascii) : list ascii * list ascii :=
  match s with
  | c :: r =>
      if isdigit c then let '(d, t) := span_digits r in (c :: d, t)
      else ([], s)
  | [] => ([], [])
  end.

Definition digits_value (d : list ascii) : Z :=
  fold_left (fun acc c => (10 * acc + (Z.of_N (code c) - 48))%Z) d 0%Z.

Definition split_sign (s : list ascii) : bool * list ascii :=
  match s with
  | c :: r =>
      if is_char c 45 then (true, r)
      else if is_char c 43 then (false, r)
      else (false, s)
  | [] => (false, [])
  end.

(** A decimal numeral [d1 . d2 e x] as mantissa and decimal exponent. *)
Definition parse_decimal (s : list ascii) : option (Z * Z) :=
  let '(d1, r1) := span_digits s in
  let '(d2, r2) :=
    match r1 with
    | c :: r => if is_char c 46 then span_digits r else ([], r1)
    | [] => ([], r1)
    end in
  match d1 ++ d2 with
  | [] => None
  | ds =>
      let m := digits_value ds in
      let frac := Z.of_nat (List.length d2) in
      match r2 with
      | [] => Some (m, (- frac)%Z)
      | c :: r3 =>
          if is_char c 101 || is_char c 69 then
            let '(eneg, r4) := split_sign r3 in
            let '(d3, r5) := span_digits r4 in
            match d3, r5 with
            | _ :: _, [] =>
                let x := digits_value d3 in
                Some (m, ((if eneg then - x else x) - frac)%Z)
            | _, _ => None
            end
          else None
      end
  end.

(** The binary64 value nearest to [num / den] (both positive), ties to
    even: the quotient is scaled to a 53-bit integer [q] (fewer bits in
    the subnormal range, where the exponent stops at -1074) and rounded
    on the remainder. *)
Definition round_ratio (num den : Z) : float :=
  let e2 := (Z.log2 num - Z.log2 den)%Z in
  let scaled (ex : Z) : Z * Z :=
    ((num * 2 ^ Z.max (- ex) 0)%Z, (den * 2 ^ Z.max ex 0)%Z) in
  let ex0 := Z.max (e2 - 52) (-1074) in
  let '(n0, d0) := scaled ex0 in
  let ex :=
    if ((n0 / d0 <? 2 ^ 52) && (-1074 <? ex0))%Z then (ex0 - 1)%Z
    else ex0 in
  let '(n, d) := scaled ex in
  let q := (n / d)%Z in
  let r := (n mod d)%Z in
  let q' :=
    match (2 * r ?= d)%Z with
    | Lt => q
    | Gt => (q + 1)%Z
    | Eq => if Z.even q then q else (q + 1)%Z
    end in
  Z.ldexp (of_uint63 (Uint63.of_Z q')) ex.

(** [m * 10 ^ e10] as a binary64 value. The two shortcuts only save the
    computation of a huge power: from [1e309] on every numeral rounds
    to infinity, and below [1e-324] every numeral rounds to zero. *)
Definition decimal_to_float (m e10 : Z) : float :=
  if (m =? 0)%Z then PrimFloat.zero
  else if (309 <=? e10)%Z then PrimFloat.infinity
  else if (Z.log2 m + 1 + e10 <=? -324)%Z then PrimFloat.zero
  else round_ratio (m * 10 ^ Z.max e10 0)%Z (10 ^ Z.max (- e10) 0)%Z.

Definition lower_ascii (c : ascii) : ascii :=
  let n := code c in
  if ((65 <=? n) && (n <=? 90))%N then ascii_of_N (n + 32) else c.

(** [_Py_parse_inf_or_nan], after the sign. *)
Definition parse_inf_or_nan (s : list ascii) : option float :=
  let w := string_of_list_ascii (map lower_ascii s) in
  if String.eqb w "inf" || String.eqb w "infinity" then Some PrimFloat.infinity
  else if String.eqb w "nan" then Some PrimFloat.nan
  else None.

Definition parse_number (s : list ascii) : option float :=
  let '(neg, body) := split_sign s in
  let magnitude :=
    match parse_decimal body with
    | Some (m, e10) => Some (decimal_to_float m e10)
    | None => parse_inf_or_nan body
    end in
  option_map (fun f => if neg then (- f)%float else f) magnitude.

(** [float(s)] for a [str] *)
Definition float_of_str (s : string) : result float :=
  let chars := strip_c (map transform (list_ascii_of_string s)) in
  match chars with
  | [] => Raise ValueError
  | _ =>
      match drop_underscores "000"%char chars with
      | None => Raise ValueError
      | Some t =>
          match parse_number t with
          | Some f => Ok f
          | None => Raise ValueError
          end
      end
  end.

(** [float(x)] for an [Optional[str]] *)
Definition float (x : option string) : result PrimFloat.float :=
  match x with
  | Some s => float_of_str s
  | None => Raise TypeError
  end.
End PyFloat.

(* ================================================================== *)
(** * [csv.DictReader(StringIO(text))]

    The reader of CPython's [_csv] module for the default [excel] dialect
    (delimiter comma, quote character 34, doubled quotes, no escape
    character, not strict), fed with the lines of a [StringIO], which end
    at a line feed only. The states [ESCAPED_CHAR], [ESCAPE_IN_QUOTED_FIELD]
    and [AFTER_ESCAPED_CRNL] need an escape character and are left out.
    [None] as input character is the end-of-line mark that the reader
    processes after the last character of each line. A NUL character is
    data, as from CPython 3.11 on. *)

Module csv.
Import Str.

Definition field_limit : N := 131072.

Inductive ParserState : Type :=
| START_RECORD
| START_FIELD
| IN_FIELD
| IN_QUOTED_FIELD
| QUOTE_IN_QUOTED_FIELD
| EAT_CRNL.

Record ReaderObj : Type := mkReader {
  state : ParserState;
  fields : list string;      (* fields of the record so far, last first *)
  field : list ascii;        (* characters of the field so far, last first *)
  field_len : N
}.

Definition parse_reset : ReaderObj :=
  {| state := START_RECORD; fields := []; field := []; field_len := 0 |}.

Definition set_state (st : ParserState) (self : ReaderObj) : ReaderObj :=
  {| state := st; fields := fields self; field := field self;
     field_len := field_len self |}.

Definition parse_save_field (self : ReaderObj) : ReaderObj :=
  {| state := state self;
     fields := string_of_list_ascii (rev (field self)) :: fields self;
     field := []; field_len := 0 |}.

Definition parse_add_char (self : ReaderObj) (c : ascii)
  : result ReaderObj :=
  if (field_limit <=? field_len self)%N then Raise csv_Error
  else Ok {| state := state self; fields := fields self;
             field := c :: field self;
             field_len := (field_len self + 1)%N |}.

Definition is_newline (c : ascii) : bool :=
  (code c =? 10)%N || (code c =? 13)%N.
Definition is_delimiter (c : ascii) : bool := (code c =? 44)%N.
Definition is_quotechar (c : ascii) : bool := (code c =? 34)%N.

Definition end_of_line (c : option ascii) : bool :=
  match c with
  | None => true
  | Some ch => is_newline ch
  end.

Definition after_line (c : option ascii) : ParserState :=
  match c with
  | None => START_RECORD
  | Some _ => EAT_CRNL
  end.

(** The case [START_FIELD] of [parse_process_char], which the case
    [START_RECORD] falls through to. *)
Definition start_field (self : ReaderObj) (c : option ascii)
  : result ReaderObj :=
  if end_of_line c then
    Ok (set_state (after_line c) (parse_save_field self))
  else
    match c with
    | None => Ok self
    | Some ch =>
        if is_quotechar ch then Ok (set_state IN_QUOTED_FIELD self)
        else if is_delimiter ch then Ok (parse_save_field self)
        else Res.bind (parse_add_char self ch)
                      (fun s => Ok (set_state IN_FIELD s))
    end.

Definition parse_process_char (self : ReaderObj) (c : option ascii)
  : result ReaderObj :=
  match state self with
  | START_RECORD =>
      match c with
      | None => Ok self
      | Some ch =>
          if is_newline ch then Ok (set_state EAT_CRNL self)
          else start_field (set_state START_FIELD self) c
      end
  | START_FIELD => start_field self c
  | IN_FIELD =>
      if end_of_line c then
        Ok (set_state (after_line c) (parse_save_field self))
      else
        match c with
        | None => Ok self
        | Some ch =>
            if is_delimiter ch then
              Ok (set_state START_FIELD (parse_save_field self))
            else parse_add_char self ch
        end
  | IN_QUOTED_FIELD =>
      match c with
      | None => Ok self
      | Some ch =>
          if is_quotechar ch then Ok (set_state QUOTE_IN_QUOTED_FIELD self)
          else parse_add_char self ch
      end
  | QUOTE_IN_QUOTED_FIELD =>
      match c with
      | None => Ok (set_state START_RECORD (parse_save_field self))
      | Some ch =>
          if is_quotechar ch then
            Res.bind (parse_add_char self ch)
                     (fun s => Ok (set_state IN_QUOTED_FIELD s))
          else if is_delimiter ch then
            Ok (set_state START_FIELD (parse_save_field self))
          else if is_newline ch then
            Ok (set_state EAT_CRNL (parse_save_field self))
          else
            Res.bind (parse_add_char self ch)
                     (fun s => Ok (set_state IN_FIELD s))
      end
  | EAT_CRNL =>
      match c with
      | None => Ok (set_state START_RECORD self)
      | Some ch => if is_newline ch then Ok self else Raise csv_Error
      end
  end.

(** The lines a [StringIO(text)] yields: each ends after a line feed, the
    last one possibly without. *)
Fixpoint readlines (text : string) : list string :=
  match text with
  | EmptyString => []
  | String c r =>
      if (code c =? 10)%N then String c EmptyString :: readlines r
      else
        match readlines r with
        | [] => [String c EmptyString]
        | l :: ls => String c l :: ls
        end
  end.

(** One line through [parse_process_char], then the end-of-line mark. *)
Fixpoint process_line (self : ReaderObj) (line : string)
  : result ReaderObj :=
  match line with
  | EmptyString => parse_process_char self None
  | String c r =>
      Res.bind (parse_process_char self (Some c))
               (fun s => process_line s r)
  end.

(** All records of the input: [Reader_iternext] until the lines run out.
    A record ends with the line that leaves the parser in [START_RECORD];
    when the input ends inside a record, what was read of it is the last
    record. *)
Fixpoint reader_from (self : ReaderObj) (lines : list string)
  : result (list (list string)) :=
  match lines with
  | [] =>
      match state self, field_len self with
      | IN_QUOTED_FIELD, _ | _, Npos _ =>
          Ok [rev (fields (parse_save_field self))]
      | _, N0 => Ok []
      end
  | line :: rest =>
      Res.bind (process_line self line) (fun s =>
        match state s with
        | START_RECORD =>
            Res.bind (reader_from parse_reset rest)
                     (fun records => Ok (rev (fields s) :: records))
        | _ => reader_from s rest
        end)
  end.

Definition reader (text : string) : result (list (list string)) :=
  reader_from parse_reset (readlines text).

(** A row of a [DictReader]: field name to value, the value [None] where
    the record was shorter than the header. The surplus values of a longer
    record, which [DictReader] stores under the key [None], are not kept:
    the module looks up string keys only. *)
Abbreviation row := (gmap string (option string)).

(** [row.get(key)] *)
Definition row_get (r : row) (key : string) : option string :=
  match r !! key with
  | Some v => v
  | None => None
  end.

(** [dict(zip(fieldnames, record))], then [restval] for the names left. *)
Fixpoint make_row (fieldnames record : list string) (d : row) : row :=
  match fieldnames, record with
  | k :: ks, v :: vs => make_row ks vs (<[k := Some v]> d)
  | k :: ks, [] => make_row ks [] (<[k := None]> d)
  | [], _ => d
  end.

Definition is_blank (record : list string) : bool :=
  match record with [] => true | _ :: _ => false end.

(** The rows of [DictReader(StringIO(text))]: the first record is the
    header, empty records after it are skipped. *)
Definition DictReader (text : string) : result (list row) :=
  Res.bind (reader text) (fun records =>
    match records with
    | [] => Ok []
    | fieldnames :: rest =>
        Ok (map (fun record => make_row fieldnames record ∅)
                (List.filter (fun record => negb (is_blank record)) rest))
    end).
End csv.

(* ================================================================== *)
(** * The [math] module and float power

    [math.sin], [math.cos] and [math.asin] are the platform's C functions
    behind CPython's error checks, and [x ** y] on floats is the platform's
    [pow]: they are an interface here. Each may raise ([ValueError] on a
    domain error, [OverflowError]); [math.radians] is a multiplication and
    never raises. *)

Module math.
Class Module : Type := {
  radians : float -> float;
  sin : float -> result float;
  cos : float -> result float;
  asin : float -> result float;
  sqrt : float -> result float;
  float_pow : float -> float -> result float
}.
End math.

(* ================================================================== *)
(** * Module constants *)

Definition OURAIRPORTS_PRIMARY : string :=
  "https://ourairports.com/data/airports.csv".
Definition OURAIRPORTS_FALLBACK : string :=
  "https://raw.githubusercontent.com/davidmegginson/ourairports-data/main/airports.csv".

(** [7 * 24 * 3600] *)
Definition CACHE_TTL_SECONDS : float := 604800%float.

(** The initial value [300.0] of the global [MAX_AIRPORT_DISTANCE_KM],
    which the command line may rebind. *)
Definition MAX_AIRPORT_DISTANCE_KM_default : float := 300%float.

Definition AIRPORT_TYPES : gset string :=
  {[ "large_airport"; "medium_airport" ]}.
Definition REQUIRE_SCHEDULED_SERVICE : bool := true.

(** An element of the airport lists: [{"name": .., "lat": .., "lon": ..}]. *)
Record airport : Type := mkAirport {
  name : string;
  lat : float;
  lon : float
}.

(** [a["lat"]] and [a["lon"]] where [lat] and [lon] name the query point. *)
Abbreviation lat_of := lat.
Abbreviation lon_of := lon.

(* ================================================================== *)
(** * Geo math *)

Section GeoMath.
Context `{M : math.Module}.
Local Open Scope float_scope.
Local Open Scope result_scope.

(** [R = 6371.0088] *)
Definition R : float := 0x1.8e30240b78034p+12.

Definition haversine_km (lat1 lon1 lat2 lon2 phi1 cos_phi1 : float)
  : result float :=
  let phi2 := math.radians lat2 in
  let dphi := phi2 - phi1 in
  let dlambda := math.radians (lon2 - lon1) in
  let! sin_dphi := math.sin (dphi / 2) in
  let! sq_dphi := math.float_pow sin_dphi 2 in
  let! cos_phi2 := math.cos phi2 in
  let! sin_dlambda := math.sin (dlambda / 2) in
  let! sq_dlambda := math.float_pow sin_dlambda 2 in
  let a := sq_dphi + cos_phi1 * cos_phi2 * sq_dlambda in
  let! root := math.sqrt a in
  let! angle := math.asin root in
  Ok (2 * R * angle).
End GeoMath.

(* ================================================================== *)
(** * Record filter: [_parse_airports_csv] *)

Section ParseAirports.
Import Str.
Local Open Scope result_scope.

(** [get = lambda row, key: (row.get(key) or "").strip()] *)
Definition get (row : csv.row) (key : string) : string :=
  strip (or_empty (csv.row_get row key)).

(** The body of [for row in reader], with the list built so far. *)
Fixpoint _parse_airports_csv_loop (rows : list csv.row)
         (airports : list airport) : result (list airport) :=
  match rows with
  | [] => Ok airports
  | row :: rest =>
      let tp := get row "type" in
      if negb (bool_decide (tp ∈ AIRPORT_TYPES)) then
        _parse_airports_csv_loop rest airports
      else if REQUIRE_SCHEDULED_SERVICE
              && negb (String.eqb
                         (strip (lower (or_empty
                            (csv.row_get row "scheduled_service"))))
                         "yes") then
        _parse_airports_csv_loop rest airports
      else
        let name := get row "name" in
        let lat_s := csv.row_get row "latitude_deg" in
        let lon_s := csv.row_get row "longitude_deg" in
        if negb (truthy name) || negb (opt_truthy lat_s)
           || negb (opt_truthy lon_s) then
          _parse_airports_csv_loop rest airports
        else
          let! converted :=
            Res.try_except
              (let! lat := PyFloat.float lat_s in
               let! lon := PyFloat.float lon_s in
               Ok (Some (lat, lon)))
              except_ValueError
              (Ok None) in
          match converted with
          | None => _parse_airports_csv_loop rest airports
          | Some (lat, lon) =>
              _parse_airports_csv_loop rest
                (airports ++ [mkAirport name lat lon])
          end
  end.

Definition _parse_airports_csv (text : string) : result (list airport) :=
  let! rows := csv.DictReader text in
  _parse_airports_csv_loop rows [].
End ParseAirports.

(* ================================================================== *)
(** * The world of the cache manager

    What the module reads and writes outside its arguments: the global
    [_AIRPORTS_CACHE], the global [MAX_AIRPORT_DISTANCE_KM], the file
    [PARQUET_FILE], the clock and the network. The lock [_AIRPORTS_LOCK]
    serialises the callers; the model is one caller at a time. The prints
    under [debug] are left out. Every operation on the file, the clock and
    the network appends an event to [trace]. *)

(** The file [airports_cache.parquet]: its modification time and what
    [_read_parquet] makes of it, a list of airports or an exception when the
    file is not a readable table. *)
Record ParquetFile : Type := mkParquet {
  mtime : float;
  table : result (list airport)
}.

(** How [pq.write_table] ends: the table is on disk, or an exception with
    whatever it left at the path. *)
Inductive WriteOutcome : Type :=
| Written
| WriteFails (e : exn) (leftover : option ParquetFile).

Inductive event : Type :=
| ev_exists
| ev_time
| ev_getmtime
| ev_read_table
| ev_write_table (airports : list airport)
| ev_get (url : string).

Record World : Type := mkWorld {
  _AIRPORTS_CACHE : list airport;
  MAX_AIRPORT_DISTANCE_KM : float;
  parquet : option ParquetFile;
  clock : float;
  (* the body of a successful response, or [None] for a request that
     fails with a [requests.RequestException] *)
  http : string -> option string;
  disk : WriteOutcome;
  trace : list event
}.

Definition IO (A : Type) : Type := World -> result A * World.

Module IO.
Definition ret {A} (a : A) : IO A := fun w => (Ok a, w).

Definition bind {A B} (m : IO A) (k : A -> IO B) : IO B :=
  fun w =>
    match m w with
    | (Ok a, w') => k a w'
    | (Raise e, w') => (Raise e, w')
    end.

Definition lift {A} (r : result A) : IO A := fun w => (r, w).

Definition try_except {A} (m : IO A) (catches : exn -> bool)
           (handler : IO A) : IO A :=
  fun w =>
    match m w with
    | (Ok a, w') => (Ok a, w')
    | (Raise e, w') => if catches e then handler w' else (Raise e, w')
    end.

Definition log (e : event) (w : World) : World :=
  {| _AIRPORTS_CACHE := _AIRPORTS_CACHE w;
     MAX_AIRPORT_DISTANCE_KM := MAX_AIRPORT_DISTANCE_KM w;
     parquet := parquet w; clock := clock w; http := http w;
     disk := disk w; trace := trace w ++ [e] |}.

Definition set_cache (l : list airport) : IO unit :=
  fun w =>
    (Ok tt,
     {| _AIRPORTS_CACHE := l;
        MAX_AIRPORT_DISTANCE_KM := MAX_AIRPORT_DISTANCE_KM w;
        parquet := parquet w; clock := clock w; http := http w;
        disk := disk w; trace := trace w |}).

Definition get_cache : IO (list airport) :=
  fun w => (Ok (_AIRPORTS_CACHE w), w).

Definition set_parquet (f : option ParquetFile) (w : World) : World :=
  {| _AIRPORTS_CACHE := _AIRPORTS_CACHE w;
     MAX_AIRPORT_DISTANCE_KM := MAX_AIRPORT_DISTANCE_KM w;
     parquet := f; clock := clock w; http := http w;
     disk := disk w; trace := trace w |}.
End IO.

Declare Scope io_scope.
Delimit Scope io_scope with io.
Notation "'do!' x ':=' m 'in' k" := (IO.bind m (fun x => k))
  (at level 10, x name, m at level 100, k at level 200) : io_scope.
Notation "m ';;;' k" := (IO.bind m (fun _ => k))
  (at level 100, k at level 200, right associativity) : io_scope.

Section Library.
(** [os.path.exists(PARQUET_FILE)] *)
Definition os_path_exists : IO bool :=
  fun w =>
    (Ok (match parquet w with Some _ => true | None => false end),
     IO.log ev_exists w).

(** [os.path.getmtime(PARQUET_FILE)] *)
Definition os_path_getmtime : IO float :=
  fun w =>
    (match parquet w with
     | Some f => Ok (mtime f)
     | None => Raise OSError
     end, IO.log ev_getmtime w).

(** [time.time()] *)
Definition time_time : IO float :=
  fun w => (Ok (clock w), IO.log ev_time w).

(** [requests.get(url, ...)], [raise_for_status()] and [.text] *)
Definition requests_get_text (url : string) : IO string :=
  fun w =>
    (match http w url with
     | Some body => Ok body
     | None => Raise RequestException
     end, IO.log (ev_get url) w).

(** [pq.write_table(table, PARQUET_FILE)] for the table of [airports] *)
Definition pq_write_table (airports : list airport) : IO unit :=
  fun w =>
    let w' := IO.log (ev_write_table airports) w in
    match disk w with
    | Written =>
        (Ok tt,
         IO.set_parquet (Some (mkParquet (clock w) (Ok airports))) w')
    | WriteFails e leftover => (Raise e, IO.set_parquet leftover w')
    end.

(** [pq.read_table(PARQUET_FILE, ...)] turned into the list of airports *)
Definition pq_read_table : IO (list airport) :=
  fun w =>
    (match parquet w with
     | Some f => table f
     | None => Raise OSError
     end, IO.log ev_read_table w).
End Library.

(* ================================================================== *)
(** * Cache manager *)

Definition nonempty {A} (l : list A) : bool :=
  match l with [] => false | _ :: _ => true end.

Section CacheManager.
Local Open Scope io_scope.
Local Open Scope float_scope.

Definition _download_text (url : string) : IO (option string) :=
  IO.try_except
    (do! text := requests_get_text url in IO.ret (Some text))
    except_RequestException
    (IO.ret None).

Definition _parquet_is_fresh : IO bool :=
  do! found := os_path_exists in
  if found then
    do! now := time_time in
    do! modified := os_path_getmtime in
    IO.ret (now - modified <? CACHE_TTL_SECONDS)
  else IO.ret false.

Definition _write_parquet (airports : list airport) : IO unit :=
  if negb (nonempty airports) then IO.ret tt
  else pq_write_table airports.

Definition _read_parquet : IO (list airport) := pq_read_table.

Definition load_airports_once (force_refresh : bool)
  : IO (list airport) :=
  do! cached := IO.get_cache in
  if nonempty cached && negb force_refresh then IO.ret cached
  else
    (* 1) a fresh parquet file is read *)
    do! fresh :=
      (if negb force_refresh then _parquet_is_fresh else IO.ret false) in
    do! loaded :=
      (if fresh then
         IO.try_except
           (do! airports := _read_parquet in
            IO.set_cache airports;;;
            do! cached := IO.get_cache in
            IO.ret (Some cached))
           except_Exception
           (IO.ret None)
       else IO.ret None) in
    match loaded with
    | Some cached => IO.ret cached
    | None =>
        (* 2) the CSV is downloaded *)
        do! primary := _download_text OURAIRPORTS_PRIMARY in
        do! txt :=
          (if Str.opt_truthy primary then IO.ret primary
           else _download_text OURAIRPORTS_FALLBACK) in
        do! airports :=
          (if Str.opt_truthy txt
           then IO.lift (_parse_airports_csv (Str.or_empty txt))
           else IO.ret []) in
        (* 3) the result is saved *)
        (if nonempty airports then
           IO.try_except (_write_parquet airports)
                         except_Exception (IO.ret tt)
         else IO.ret tt);;;
        (* 4) without airports, an old parquet file is used *)
        do! airports :=
          (if negb (nonempty airports) then
             do! found := os_path_exists in
             if found then
               IO.try_except _read_parquet except_Exception (IO.ret [])
             else IO.ret airports
           else IO.ret airports) in
        IO.set_cache airports;;;
        IO.get_cache
    end.
End CacheManager.

(* ================================================================== *)
(** * Nearest-neighbour search and the public function *)

(** The result [{"airport": .., "error": ..}] of [get_nearest_airport]. *)
Record response : Type := mkResponse {
  airport_ : option string;
  error_ : option string
}.

Section Search.
Context `{M : math.Module}.
Local Open Scope float_scope.
Local Open Scope result_scope.

(** The loop [for a in airports] of [nearest_airport], from the values of
    [best_name] and [best_dist] before it to their values after it. *)
Fixpoint nearest_airport_loop (lat lon phi1 cos_phi1 : float)
         (airports : list airport)
         (best_name : option string) (best_dist : float)
  : result (option string * float) :=
  match airports with
  | [] => Ok (best_name, best_dist)
  | a :: rest =>
      let! d := haversine_km lat lon (lat_of a) (lon_of a)
                             phi1 cos_phi1 in
      if d <? best_dist then
        nearest_airport_loop lat lon phi1 cos_phi1 rest (Some (name a)) d
      else
        nearest_airport_loop lat lon phi1 cos_phi1 rest best_name best_dist
  end.

(** [nearest_airport(lat, lon, airports)], with the value of the global
    [MAX_AIRPORT_DISTANCE_KM] it reads as first argument. *)
Definition nearest_airport (max_km : float) (lat lon : float)
           (airports : list airport)
  : result (option string * option string) :=
  if negb (nonempty airports) then Ok (None, None)
  else
    let phi1 := math.radians lat in
    let! cos_phi1 := math.cos phi1 in
    let! best :=
      nearest_airport_loop lat lon phi1 cos_phi1 airports None infinity in
    let '(best_name, best_dist) := best in
    if max_km <? best_dist then Ok (None, None)
    else Ok (best_name, None).

(** [x if x else None] for an [Optional[str]] *)
Definition if_truthy (x : option string) : option string :=
  if Str.opt_truthy x then x else None.

Definition get_nearest_airport (lat lon : float) (refresh_airports : bool)
  : IO response :=
  if negb ((-90 <=? lat) && (lat <=? 90)
           && ((-180 <=? lon) && (lon <=? 180))) then
    IO.ret (mkResponse None (Some "Invalid coordinates"%string))
  else
    (do! airports := load_airports_once refresh_airports in
     fun w =>
       IO.bind (IO.lift (nearest_airport (MAX_AIRPORT_DISTANCE_KM w)
                                         lat lon airports))
               (fun found =>
                  IO.ret (mkResponse (if_truthy (fst found))
                                     (if_truthy (snd found)))) w)%io.
End Search.

(* ================================================================== *)
(** * Notions the properties are stated with *)

(** [x] is a number: not a NaN. *)
Definition is_number (x : float) : bool := (x =? x)%float.

(** The bounds of the data model: latitude in [-90, 90], longitude in
    [-180, 180]. *)
Definition coordinates_in_bounds (lat lon : float) : bool :=
  ((-90 <=? lat) && (lat <=? 90) && ((-180 <=? lon) && (lon <=? 180)))%float.

(** A latitude or a longitude beyond its bounds. *)
Definition out_of_range (lat lon : float) : bool :=
  ((lat <? -90) || (90 <? lat) || (lon <? -180) || (180 <? lon))%float.

Definition invalid_coordinates : response :=
  mkResponse None (Some "Invalid coordinates").

Section SpecSide.
Context `{M : math.Module}.
Local Open Scope float_scope.
Local Open Scope result_scope.

(** The distance of section 4.1 of the specification, [distanceKm], which
    takes the two points in degrees and converts and takes the cosine of
    the first latitude inside the formula, for each pair anew. *)
Definition distanceKm (lat1 lon1 lat2 lon2 : float) : result float :=
  let phi1 := math.radians lat1 in
  let phi2 := math.radians lat2 in
  let dphi := phi2 - phi1 in
  let dlambda := math.radians (lon2 - lon1) in
  let! sin_dphi := math.sin (dphi / 2) in
  let! sq_dphi := math.float_pow sin_dphi 2 in
  let! cos_phi1 := math.cos phi1 in
  let! cos_phi2 := math.cos phi2 in
  let! sin_dlambda := math.sin (dlambda / 2) in
  let! sq_dlambda := math.float_pow sin_dlambda 2 in
  let a := sq_dphi + cos_phi1 * cos_phi2 * sq_dlambda in
  let! root := math.sqrt a in
  let! angle := math.asin root in
  Ok (2 * R * angle).

(** The distance from the query point to an airport as the loop of
    [nearest_airport] computes it, [cos_phi1] being the cosine taken
    before the loop. *)
Definition distance_to (lat lon cos_phi1 : float) (a : airport)
  : result float :=
  haversine_km lat lon (lat_of a) (lon_of a)
               (math.radians lat) cos_phi1.

(** No airport of [l] is at a distance below [d]. *)
Definition no_closer (lat lon cos_phi1 d : float) (l : list airport)
  : Prop :=
  forall b, b ∈ l ->
    exists db, distance_to lat lon cos_phi1 b = Ok db /\ (db <? d) = false.

(** No airport of [l] is at a distance below or equal to [d]. *)
Definition all_farther (lat lon cos_phi1 d : float) (l : list airport)
  : Prop :=
  forall b, b ∈ l ->
    exists db, distance_to lat lon cos_phi1 b = Ok db
               /\ (db <? d) = false /\ (db =? d) = false.
End SpecSide.

(** A [math] module lets a NaN through, as CPython's does: no function
    raises on a NaN argument, each returns a NaN. *)
Definition passes_nan `{M : math.Module} : Prop :=
  math.radians nan = nan
  /\ math.sin nan = Ok nan
  /\ math.cos nan = Ok nan
  /\ math.asin nan = Ok nan
  /\ math.sqrt nan = Ok nan
  /\ math.float_pow nan 2 = Ok nan.

(** The row filter of section 4.3 of the specification, one row at a time:
    the airport a row contributes, if any. The fields [type],
    [scheduled_service] and [name] are read without surrounding white
    space. *)
Definition keep_row (row : csv.row) : option airport :=
  let field key := Str.strip (Str.or_empty (csv.row_get row key)) in
  if bool_decide (field "type" ∈ AIRPORT_TYPES)
     && String.eqb
          (Str.strip (Str.lower
             (Str.or_empty (csv.row_get row "scheduled_service")))) "yes"
     && Str.truthy (field "name")
  then
    match csv.row_get row "latitude_deg", csv.row_get row "longitude_deg" with
    | Some lat_s, Some lon_s =>
        match PyFloat.float_of_str lat_s, PyFloat.float_of_str lon_s with
        | Ok lat, Ok lon => Some (mkAirport (field "name") lat lon)
        | _, _ => None
        end
    | _, _ => None
    end
  else None.

(** The filter read without the trimming: the type is one of the two
    categories as it stands, the scheduled-service flag is [yes] up to
    case, the name is not the empty string, both coordinates convert. *)
Definition keeps_as_stated (row : csv.row) : bool :=
  bool_decide (Str.or_empty (csv.row_get row "type") ∈ AIRPORT_TYPES)
  && String.eqb
       (Str.lower (Str.or_empty (csv.row_get row "scheduled_service"))) "yes"
  && Str.truthy (Str.or_empty (csv.row_get row "name"))
  && Res.is_ok (PyFloat.float (csv.row_get row "latitude_deg"))
  && Res.is_ok (PyFloat.float (csv.row_get row "longitude_deg")).

(** The parquet file can be read and is younger than the time to live. *)
Definition fresh_and_readable (w : World) : bool :=
  match parquet w with
  | Some f =>
      (clock w - mtime f <? CACHE_TTL_SECONDS)%float && Res.is_ok (table f)
  | None => false
  end.

(** Step 2 of [load_airports_once] as a function of the network: the
    text of the primary source, or of the fallback source when the primary
    request fails or gives an empty text, put through
    [_parse_airports_csv]; no airports when there is no text. *)
Definition fetch_and_normalize (w : World) : result (list airport) :=
  let primary := http w OURAIRPORTS_PRIMARY in
  let txt :=
    if Str.opt_truthy primary then primary
    else http w OURAIRPORTS_FALLBACK in
  if Str.opt_truthy txt then _parse_airports_csv (Str.or_empty txt)
  else Ok [].

(** The call goes past the first two steps of [load_airports_once]: the
    cache slot is not used (it is empty, or the refresh is forced) and no
    fresh parquet file is read (the refresh is forced, or the file is
    missing, old or unreadable). *)
Definition reaches_download (force_refresh : bool) (w : World) : bool :=
  force_refresh
  || negb (nonempty (_AIRPORTS_CACHE w)) && negb (fresh_and_readable w).

(** The URLs requested among a list of events, in order. *)
Fixpoint urls_requested (evs : list event) : list string :=
  match evs with
  | [] => []
  | ev_get url :: rest => url :: urls_requested rest
  | _ :: rest => urls_requested rest
  end.

(** The tables written among a list of events, in order. *)
Fixpoint tables_written (evs : list event) : list (list airport) :=
  match evs with
  | [] => []
  | ev_write_table airports :: rest => airports :: tables_written rest
  | _ :: rest => tables_written rest
  end.

(** The columns [_parse_airports_csv] looks up in a row. *)
Definition required_columns : list string :=
  ["type"; "scheduled_service"; "name"; "latitude_deg"; "longitude_deg"].

(* ------------------------------------------------------------------ *)
(** ** Example inputs *)

Module Examples.
Local Open Scope float_scope.

Definition LF : string := String "010"%char "".
Definition CR : string := String "013"%char "".

Definition header : string :=
  "type,scheduled_service,name,latitude_deg,longitude_deg".

(** One row whose latitude is 1000 degrees. *)
Definition far_north_csv : string :=
  header +:+ LF +:+ "large_airport,yes,Far North,1000,0" +:+ LF.

(** One row whose name is a single blank. *)
Definition blank_name_csv : string :=
  header +:+ LF +:+ "large_airport,yes, ,1,2" +:+ LF.

(** Two rows that pass and two that do not. *)
Definition london_csv : string :=
  header +:+ LF
  +:+ "large_airport,yes,Heathrow,51.4706,-0.4619" +:+ LF
  +:+ "small_airport,yes,Denham,51.5883,-0.5131" +:+ LF
  +:+ "large_airport,yes,Gatwick,51.1481,-0.1903" +:+ LF
  +:+ "medium_airport,no,Northolt,51.553,-0.4182" +:+ LF.

(** The same table with a carriage return alone as line end. *)
Definition cr_only_csv : string :=
  header +:+ CR +:+ "large_airport,yes,Heathrow,51.4706,-0.4619" +:+ CR.

(** The query point of the examples: 51.5 degrees north, an eighth of a
    degree west, and the cosine [taylor_math] below gives for it. *)
Definition query_lat : float := 51.5.
Definition query_lon : float := -0.125.

Definition heathrow : airport :=
  mkAirport "Heathrow" 0x1.9bc3c9eecbfb1p+5 (-0x1.d8fc504816f00p-2).
Definition gatwick : airport :=
  mkAirport "Gatwick" 0x1.992f4f0d844d0p+5 (-0x1.85bc01a36e2ebp-3).

(** A process that has loaded nothing, with no parquet file, whose two
    downloads give [primary] and [fallback]. *)
Definition fresh_process (primary fallback : option string) : World :=
  {| _AIRPORTS_CACHE := [];
     MAX_AIRPORT_DISTANCE_KM := MAX_AIRPORT_DISTANCE_KM_default;
     parquet := None;
     clock := 0x1.a5e0000000000p+30;
     http := fun url =>
               if String.eqb url OURAIRPORTS_PRIMARY then primary
               else if String.eqb url OURAIRPORTS_FALLBACK then fallback
               else None;
     disk := Written;
     trace := [] |}.

(** A stand-in for the [math] module, to run the search on examples:
    the error checks are CPython's, the values of the sine, cosine and
    arc sine are those of their Taylor polynomials of degree 7, 6 and 7,
    the power is the square, the one exponent the module uses. The
    properties below hold for every instance of the interface. *)
Definition checked (domain_ok : bool) (y : float) : result float :=
  if domain_ok then Ok y else Raise ValueError.

#[local] Instance taylor_math : math.Module := {|
  math.radians x := x * 0x1.1df46a2529d39p-6;
  math.sin x :=
    let x2 := x * x in
    checked (negb (is_infinity x))
            (x * (1 - x2 / 6 * (1 - x2 / 20 * (1 - x2 / 42))));
  math.cos x :=
    let x2 := x * x in
    checked (negb (is_infinity x))
            (1 - x2 / 2 * (1 - x2 / 12 * (1 - x2 / 30)));
  math.asin x :=
    let x2 := x * x in
    checked (negb ((x <? -1) || (1 <? x)))
            (x * (1 + x2 / 6 * (1 + x2 * 9 / 20 * (1 + x2 * 25 / 42))));
  math.sqrt x := checked (negb (x <? 0)) (PrimFloat.sqrt x);
  math.float_pow x y :=
    if y =? 2 then
      if is_finite x && is_infinity (x * x) then Raise OverflowError
      else Ok (x * x)
    else Raise ValueError
|}.

Definition query_cos : float :=
  Eval vm_compute in
    match math.cos (math.radians query_lat) with
    | Ok c => c
    | Raise _ => nan
    end.

(** The distance [taylor_math] gives from the query point to Heathrow. *)
Definition heathrow_km : float :=
  Eval vm_compute in
    match distance_to query_lat query_lon query_cos heathrow with
    | Ok d => d
    | Raise _ => nan
    end.

(** A process whose cache slot is empty, with a parquet file written a
    day before and no network. *)
Definition offline_process : World :=
  {| _AIRPORTS_CACHE := [];
     MAX_AIRPORT_DISTANCE_KM := MAX_AIRPORT_DISTANCE_KM_default;
     parquet := Some (mkParquet 0x1.a5dfab8000000p+30 (Ok [heathrow]));
     clock := 0x1.a5e0000000000p+30;
     http := fun _ => None;
     disk := Written;
     trace := [] |}.

(** The table without its name column. *)
Definition no_name_csv : string :=
  "type,scheduled_service,latitude_deg,longitude_deg" +:+ LF
  +:+ "large_airport,yes,51.4706,-0.4619" +:+ LF.

(** A record whose latitude is not a number. *)
Definition nowhere : airport := mkAirport "Nowhere" nan 0.


(** A process whose cache slot is empty, with a parquet file written
    thirty days before and no network. *)
Definition stale_process : World :=
  {| _AIRPORTS_CACHE := [];
     MAX_AIRPORT_DISTANCE_KM := MAX_AIRPORT_DISTANCE_KM_default;
     parquet := Some (mkParquet 1766880000 (Ok [heathrow]));
     clock := 1769472000;
     http := fun _ => None;
     disk := Written;
     trace := [] |}.

(** A process that has loaded two airports, with no parquet file and no
    network. *)
Definition warm_process : World :=
  {| _AIRPORTS_CACHE := [heathrow; gatwick];
     MAX_AIRPORT_DISTANCE_KM := MAX_AIRPORT_DISTANCE_KM_default;
     parquet := None;
     clock := 1769472000;
     http := fun _ => None;
     disk := Written;
     trace := [] |}.
End Examples.

(* ================================================================== *)
(** * Properties *)

(** ** The order of binary64 values

    [<?], [<=?] and [=?] through their specification on [spec_float]:
    away from NaN they are a total preorder. *)

Module FloatOrder.
Local Open Scope float_scope.

Ltac sf_destruct x := destruct x as [ [|] | [|] | | [|] ? ? ].

Ltac sf_compare :=
  repeat match goal with
  | H : context [Pos.compare_cont Eq ?a ?b] |- _ =>
      change (Pos.compare_cont Eq a b) with (Pos.compare a b) in H
  | |- context [Pos.compare_cont Eq ?a ?b] =>
      change (Pos.compare_cont Eq a b) with (Pos.compare a b)
  end;
  repeat match goal with
  | H : context [Z.compare ?a ?b] |- _ =>
      destruct (Z.compare_spec a b); simpl in H; try discriminate H
  | H : context [Pos.compare ?a ?b] |- _ =>
      destruct (Pos.compare_spec a b); simpl in H; try discriminate H
  | |- context [Z.compare ?a ?b] => destruct (Z.compare_spec a b); simpl
  | |- context [Pos.compare ?a ?b] => destruct (Pos.compare_spec a b); simpl
  end;
  subst; try reflexivity; try discriminate; try lia.

Ltac sf_solve :=
  unfold SFltb, SFleb, SFeqb, SFcompare in *; simpl in *;
  try discriminate; try reflexivity; sf_compare.

Section Spec.
Implicit Types x y z : spec_float.

Lemma SFltb_trans x y z :
  SFltb x y = true -> SFltb y z = true -> SFltb x z = true.
Proof. sf_destruct x; sf_destruct y; sf_destruct z; intros; sf_solve. Qed.

Lemma SFeqb_ltb_trans x y z :
  SFeqb x y = true -> SFltb y z = true -> SFltb x z = true.
Proof. sf_destruct x; sf_destruct y; sf_destruct z; intros; sf_solve. Qed.

Lemma SFltb_eqb_trans x y z :
  SFltb x y = true -> SFeqb y z = true -> SFltb x z = true.
Proof. sf_destruct x; sf_destruct y; sf_destruct z; intros; sf_solve. Qed.

Lemma SFleb_ltb_trans x y z :
  SFleb x y = true -> SFltb y z = true -> SFltb x z = true.
Proof. sf_destruct x; sf_destruct y; sf_destruct z; intros; sf_solve. Qed.

Lemma SFltb_leb_false x y : SFltb x y = true -> SFleb y x = false.
Proof. sf_destruct x; sf_destruct y; intros; sf_solve. Qed.

Lemma SFltb_eqb_false x y : SFltb x y = true -> SFeqb x y = false.
Proof. sf_destruct x; sf_destruct y; intros; sf_solve. Qed.

Lemma SFeqb_sym x y : SFeqb x y = SFeqb y x.
Proof. sf_destruct x; sf_destruct y; sf_solve. Qed.


Lemma SFleb_refl x : SFeqb x x = true -> SFleb x x = true.
Proof. sf_destruct x; intros; sf_solve. Qed.

Lemma SFltb_number_l x y : SFltb x y = true -> SFeqb x x = true.
Proof. sf_destruct x; sf_destruct y; intros; sf_solve. Qed.

Lemma SFltb_or_leb x y :
  SFeqb x x = true -> SFeqb y y = true ->
  SFltb x y = true \/ SFleb y x = true.
Proof. sf_destruct x; sf_destruct y; intros; sf_solve; auto. Qed.
End Spec.

Implicit Types x y z : float.

Ltac to_spec :=
  unfold is_number;
  rewrite ?FloatAxioms.ltb_spec, ?FloatAxioms.leb_spec,
          ?FloatAxioms.eqb_spec in *.

Lemma ltb_trans x y z :
  (x <? y) = true -> (y <? z) = true -> (x <? z) = true.
Proof. to_spec. apply SFltb_trans. Qed.

Lemma eqb_ltb_trans x y z :
  (x =? y) = true -> (y <? z) = true -> (x <? z) = true.
Proof. to_spec. apply SFeqb_ltb_trans. Qed.

Lemma ltb_eqb_trans x y z :
  (x <? y) = true -> (y =? z) = true -> (x <? z) = true.
Proof. to_spec. apply SFltb_eqb_trans. Qed.

Lemma leb_ltb_trans x y z :
  (x <=? y) = true -> (y <? z) = true -> (x <? z) = true.
Proof. to_spec. apply SFleb_ltb_trans. Qed.

Lemma ltb_leb_false x y : (x <? y) = true -> (y <=? x) = false.
Proof. to_spec. apply SFltb_leb_false. Qed.

Lemma ltb_eqb_false x y : (x <? y) = true -> (x =? y) = false.
Proof. to_spec. apply SFltb_eqb_false. Qed.

Lemma eqb_sym x y : (x =? y) = (y =? x).
Proof. to_spec. apply SFeqb_sym. Qed.

Lemma eqb_not_ltb x y : (x =? y) = true -> (x <? y) = false.
Proof.
  intros E. destruct (x <? y) eqn:L; [|reflexivity].
  apply ltb_eqb_false in L. congruence.
Qed.

Lemma ltb_irrefl x : (x <? x) = false.
Proof.
  destruct (x <? x) eqn:L; [|reflexivity].
  pose proof (ltb_eqb_false _ _ L) as E.
  assert (N : is_number x = true) by (revert L; to_spec; apply SFltb_number_l).
  unfold is_number in N. congruence.
Qed.


Lemma leb_refl x : is_number x = true -> (x <=? x) = true.
Proof. to_spec. apply SFleb_refl. Qed.

Lemma ltb_number_l x y : (x <? y) = true -> is_number x = true.
Proof. to_spec. apply SFltb_number_l. Qed.

Lemma ltb_or_leb x y :
  is_number x = true -> is_number y = true ->
  (x <? y) = true \/ (y <=? x) = true.
Proof. to_spec. apply SFltb_or_leb. Qed.


End FloatOrder.

(** Two numbers neither of which is below the other are equal. *)
Module FloatTies.
Import FloatOrder.
Local Open Scope float_scope.


End FloatTies.

(** ** The scan of [nearest_airport] *)

Section SearchProperties.
Context `{M : math.Module}.
Variables lat lon cos_phi1 : float.
Local Open Scope float_scope.
Import FloatOrder.

Local Abbreviation dist := (distance_to lat lon cos_phi1).
Local Abbreviation loop := (nearest_airport_loop lat lon (math.radians lat) cos_phi1).

Lemma loop_cons a rest best_name best_dist d :
  dist a = Ok d ->
  loop (a :: rest) best_name best_dist =
    if d <? best_dist then loop rest (Some (name a)) d
    else loop rest best_name best_dist.
Proof.
  unfold distance_to. intros E. simpl. rewrite E. reflexivity.
Qed.

Lemma loop_cons_ok a rest best_name best_dist res :
  loop (a :: rest) best_name best_dist = Ok res ->
  exists d, dist a = Ok d.
Proof.
  unfold distance_to. simpl.
  destruct (haversine_km _ _ _ _ _ _) as [d|e]; [eauto | discriminate].
Qed.

Lemma loop_app l1 l2 best_name best_dist :
  loop (l1 ++ l2) best_name best_dist =
    Res.bind (loop l1 best_name best_dist)
             (fun st => loop l2 (fst st) (snd st)).
Proof.
  revert best_name best_dist.
  induction l1 as [|a l1 IH]; intros bn bd; [reflexivity|].
  simpl. destruct (haversine_km _ _ _ _ _ _) as [d|e]; simpl; [|reflexivity].
  destruct (d <? bd); apply IH.
Qed.

(** The loop ends without exception when every distance is computed. *)
Lemma loop_total airports :
  (forall a, a ∈ airports -> exists d, dist a = Ok d) ->
  forall best_name best_dist,
    exists res, loop airports best_name best_dist = Ok res.
Proof.
  induction airports as [|a rest IH]; intros Hd bn bd; [simpl; eauto|].
  destruct (Hd a) as [d Ed]; [left|].
  rewrite (loop_cons _ _ _ _ _ Ed).
  assert (Hr : forall b, b ∈ rest -> exists d, dist b = Ok d)
    by (intros b Hb; apply Hd; right; exact Hb).
  destruct (d <? bd); apply IH; exact Hr.
Qed.

(** What the loop leaves: either the values it started with, and then no
    airport was closer than [best_dist]; or the name and distance of an
    airport [a] closer than [best_dist], every airport before [a] being
    farther than [a] and no airport after [a] closer. *)
Lemma loop_outcome airports :
  forall best_name best_dist res,
    loop airports best_name best_dist = Ok res ->
    (res = (best_name, best_dist)
     /\ no_closer lat lon cos_phi1 best_dist airports)
    \/ (exists l1 a l2 d,
          airports = l1 ++ a :: l2
          /\ res = (Some (name a), d)
          /\ dist a = Ok d
          /\ (d <? best_dist) = true
          /\ all_farther lat lon cos_phi1 d l1
          /\ no_closer lat lon cos_phi1 d l2).
Proof.
  induction airports as [|a rest IH]; intros bn bd res H.
  - left. simpl in H. split; [congruence|].
    intros b Hb. inversion Hb.
  - destruct (loop_cons_ok _ _ _ _ _ H) as [d Ed].
    rewrite (loop_cons _ _ _ _ _ Ed) in H.
    destruct (d <? bd) eqn:Lt.
    + right. destruct (IH _ _ _ H) as [[-> Hno] | (l1 & a' & l2 & d' & -> & -> & Ed' & Lt' & Hl1 & Hl2)].
      * exists [], a, rest, d. repeat split; auto.
        intros b Hb. inversion Hb.
      * exists (a :: l1), a', l2, d'. repeat split; auto.
        { eapply ltb_trans; eassumption. }
        intros b Hb. apply elem_of_cons in Hb as [-> | Hb]; [|auto].
        exists d. repeat split; [exact Ed| |].
        -- destruct (d <? d') eqn:C; [|reflexivity].
           pose proof (ltb_trans _ _ _ C Lt') as C'.
           rewrite ltb_irrefl in C'. discriminate.
        -- rewrite eqb_sym. apply ltb_eqb_false. exact Lt'.
    + destruct (IH _ _ _ H) as [[-> Hno] | (l1 & a' & l2 & d' & -> & -> & Ed' & Lt' & Hl1 & Hl2)].
      * left. split; [reflexivity|].
        intros b Hb. apply elem_of_cons in Hb as [-> | Hb]; [|auto].
        exists d. split; assumption.
      * right. exists (a :: l1), a', l2, d'. repeat split; auto.
        intros b Hb. apply elem_of_cons in Hb as [-> | Hb]; [|auto].
        exists d. repeat split; [exact Ed| |].
        -- destruct (d <? d') eqn:C; [|reflexivity].
           pose proof (ltb_trans _ _ _ C Lt') as C'. congruence.
        -- destruct (d =? d') eqn:C; [|reflexivity].
           pose proof (eqb_ltb_trans _ _ _ C Lt') as C'. congruence.
Qed.

End SearchProperties.




Module FloatNaNArith.
Local Open Scope float_scope.

Lemma Prim2SF_nan : Prim2SF nan = S754_nan.
Proof. reflexivity. Qed.

Lemma is_nan_value x : Prim2SF x = S754_nan -> x = nan.
Proof. intros H. apply Prim2SF_inj. rewrite H. reflexivity. Qed.

Lemma sub_nan_l x : nan - x = nan.
Proof.
  apply is_nan_value. rewrite FloatAxioms.sub_spec, Prim2SF_nan. reflexivity.
Qed.

Lemma div_nan_l x : nan / x = nan.
Proof.
  apply is_nan_value. rewrite FloatAxioms.div_spec, Prim2SF_nan. reflexivity.
Qed.

Lemma add_nan_l x : nan + x = nan.
Proof.
  apply is_nan_value. rewrite FloatAxioms.add_spec, Prim2SF_nan. reflexivity.
Qed.

Lemma mul_nan_r x : x * nan = nan.
Proof.
  apply is_nan_value. rewrite FloatAxioms.mul_spec, Prim2SF_nan.
  destruct (Prim2SF x); reflexivity.
Qed.
End FloatNaNArith.

Section NaNLatitude.
Context `{M : math.Module}.
Local Open Scope float_scope.

(** The counterexample to C1 does not hang on the values a [math] module
    gives to the sine and the cosine: with every module that lets a NaN
    through, the distance to a record whose latitude is a NaN is a NaN,
    whatever the query point. *)
Lemma distance_to_nan_latitude qlat qlon cos_phi1 n lon2 s p :
  passes_nan ->
  math.sin (math.radians (lon2 - qlon) / 2) = Ok s ->
  math.float_pow s 2 = Ok p ->
  distance_to qlat qlon cos_phi1 (mkAirport n nan lon2) = Ok nan.
Proof.
  intros (Hrad & Hsin & Hcos & Hasin & Hsqrt & Hpow) Hs Hp.
  unfold distance_to, haversine_km. cbn [lat lon].
  rewrite Hrad, FloatNaNArith.sub_nan_l, FloatNaNArith.div_nan_l, Hsin.
  cbn [Res.bind]. rewrite Hpow. cbn [Res.bind]. rewrite Hcos.
  cbn [Res.bind]. rewrite Hs. cbn [Res.bind]. rewrite Hp. cbn [Res.bind].
  rewrite FloatNaNArith.add_nan_l, Hsqrt. cbn [Res.bind].
  rewrite Hasin. cbn [Res.bind]. rewrite FloatNaNArith.mul_nan_r.
  reflexivity.
Qed.

(** So the list of that record alone selects nothing. *)
Lemma nearest_airport_nan_latitude max_km qlat qlon cos_phi1 n lon2 s p :
  passes_nan ->
  math.cos (math.radians qlat) = Ok cos_phi1 ->
  math.sin (math.radians (lon2 - qlon) / 2) = Ok s ->
  math.float_pow s 2 = Ok p ->
  nearest_airport max_km qlat qlon [mkAirport n nan lon2] = Ok (None, None).
Proof.
  intros Hnan Hcos Hs Hp.
  pose proof (distance_to_nan_latitude qlat qlon cos_phi1 n lon2 s p
                Hnan Hs Hp) as Hd.
  unfold nearest_airport. cbn [nonempty negb]. rewrite Hcos.
  cbn [Res.bind]. rewrite (loop_cons _ _ _ _ _ _ _ _ Hd).
  change (nan <? infinity) with false. cbn.
  destruct (max_km <? infinity); reflexivity.
Qed.
End NaNLatitude.

Lemma taylor_math_passes_nan : passes_nan (M := Examples.taylor_math).
Proof. repeat split; vm_compute; reflexivity. Qed.

(** C5. The radius check after the scan. With [best_name] and [best_dist]
    as the loop leaves them: when [best_dist] exceeds the maximum distance,
    [nearest_airport] reports nothing found; when [best_dist] is at most the
    maximum, it returns [best_name], which is the name of a record of the
    list at distance [best_dist] (or nothing, when no record was closer
    than infinity). One of the two cases applies whenever the maximum is a
    number. *)
Theorem nearest_airport_radius `{M : math.Module}
        (max_km lat lon cos_phi1 : float) (airports : list airport)
        (best_name : option string) (best_dist : float) :
  math.cos (math.radians lat) = Ok cos_phi1 ->
  nearest_airport_loop lat lon (math.radians lat) cos_phi1
                       airports None infinity = Ok (best_name, best_dist) ->
  ((max_km <? best_dist)%float = true ->
     nearest_airport max_km lat lon airports = Ok (None, None))
  /\ ((best_dist <=? max_km)%float = true ->
        nearest_airport max_km lat lon airports = Ok (best_name, None)
        /\ ((best_name = None /\ best_dist = infinity)
            \/ exists a, a ∈ airports
                         /\ best_name = Some (name a)
                         /\ distance_to lat lon cos_phi1 a = Ok best_dist))
  /\ (is_number max_km = true ->
        (max_km <? best_dist)%float = true
        \/ (best_dist <=? max_km)%float = true).
Proof.
  intros Hcos Hloop.
  assert (Hret : nearest_airport max_km lat lon airports =
                 Ok (if (max_km <? best_dist)%float then None else best_name,
                     None)).
  { unfold nearest_airport. destruct airports as [|a rest].
    - simpl in Hloop. injection Hloop as <- <-.
      simpl. destruct (max_km <? infinity)%float; reflexivity.
    - cbn [nonempty negb]. rewrite Hcos. cbn [Res.bind].
      rewrite Hloop. cbn [Res.bind].
      destruct (max_km <? best_dist)%float; reflexivity. }
  assert (Hwin : (best_name = None /\ best_dist = infinity)
                 \/ exists a, a ∈ airports
                              /\ best_name = Some (name a)
                              /\ distance_to lat lon cos_phi1 a = Ok best_dist).
  { destruct (loop_outcome _ _ _ _ _ _ _ Hloop)
      as [[E _] | (l1 & a & l2 & d & -> & E & Ed & _)].
    - left. injection E as -> ->. auto.
    - right. injection E as -> ->. exists a.
      split; [apply elem_of_app; right; left | auto]. }
  split; [|split].
  - intros Lt. rewrite Hret, Lt. reflexivity.
  - intros Le. split; [|exact Hwin].
    rewrite Hret.
    destruct (max_km <? best_dist)%float eqn:Lt; [|reflexivity].
    apply FloatOrder.ltb_leb_false in Lt. congruence.
  - intros Nm. apply FloatOrder.ltb_or_leb; [exact Nm|].
    destruct Hwin as [[_ ->] | (a & Ha & _ & Ed)]; [reflexivity|].
    destruct (loop_outcome _ _ _ _ _ _ _ Hloop)
      as [[E _] | (l1 & a' & l2 & d & _ & E & _ & Lt & _)];
      injection E as _ ->; [reflexivity|].
    eapply FloatOrder.ltb_number_l; eassumption.
Qed.

Lemma nearest_airport_radius_witness :
  ((MAX_AIRPORT_DISTANCE_KM_default <? Examples.heathrow_km)%float = true ->
     nearest_airport (M := Examples.taylor_math)
       MAX_AIRPORT_DISTANCE_KM_default Examples.query_lat Examples.query_lon
       [Examples.heathrow; Examples.gatwick] = Ok (None, None))
  /\ ((Examples.heathrow_km <=? MAX_AIRPORT_DISTANCE_KM_default)%float = true ->
        nearest_airport (M := Examples.taylor_math)
          MAX_AIRPORT_DISTANCE_KM_default Examples.query_lat
          Examples.query_lon [Examples.heathrow; Examples.gatwick] =
          Ok (Some "Heathrow", None)
        /\ ((Some "Heathrow" = None /\ Examples.heathrow_km = infinity)
            \/ exists a, a ∈ [Examples.heathrow; Examples.gatwick]
                         /\ Some "Heathrow" = Some (name a)
                         /\ distance_to (M := Examples.taylor_math)
                              Examples.query_lat Examples.query_lon
                              Examples.query_cos a
                            = Ok Examples.heathrow_km))
  /\ (is_number MAX_AIRPORT_DISTANCE_KM_default = true ->
        (MAX_AIRPORT_DISTANCE_KM_default <? Examples.heathrow_km)%float = true
        \/ (Examples.heathrow_km <=? MAX_AIRPORT_DISTANCE_KM_default)%float
           = true).
Proof.
  apply (nearest_airport_radius (M := Examples.taylor_math)).
  - vm_compute. reflexivity.
  - vm_compute. reflexivity.
Defined.



(** C9. Precomputation equivalence. With [phi1 = radians(lat1)] and
    [cos_phi1 = cos(phi1)] computed once before the loop, as
    [nearest_airport] does, [haversine_km] gives for every pair of points
    the very result of [distanceKm], which converts and takes the cosine
    inside the formula: the same value, bit for bit, or the same
    exception. *)
Theorem precomputation_equivalence `{M : math.Module}
        (lat1 lon1 lat2 lon2 cos_phi1 : float) :
  math.cos (math.radians lat1) = Ok cos_phi1 ->
  haversine_km lat1 lon1 lat2 lon2 (math.radians lat1) cos_phi1
  = distanceKm lat1 lon1 lat2 lon2.
Proof.
  intros Hcos. unfold haversine_km, distanceKm.
  destruct (math.sin _) as [s|e]; [|reflexivity]. cbn [Res.bind].
  destruct (math.float_pow s 2) as [p|e]; [|reflexivity]. cbn [Res.bind].
  rewrite Hcos. reflexivity.
Qed.

Lemma precomputation_equivalence_witness :
  haversine_km (M := Examples.taylor_math) Examples.query_lat
    Examples.query_lon (lat Examples.gatwick) (lon Examples.gatwick)
    (math.radians (Module := Examples.taylor_math) Examples.query_lat)
    Examples.query_cos
  = distanceKm (M := Examples.taylor_math) Examples.query_lat
      Examples.query_lon (lat Examples.gatwick) (lon Examples.gatwick).
Proof.
  apply (precomputation_equivalence (M := Examples.taylor_math)).
  vm_compute. reflexivity.
Defined.

(** ** The record filter *)

Section FilterProperties.
Import Str.

Lemma float_of_str_raises s e :
  PyFloat.float_of_str s = Raise e -> e = ValueError.
Proof.
  unfold PyFloat.float_of_str.
  destruct (PyFloat.strip_c _); [congruence|].
  destruct (PyFloat.drop_underscores _ _); [|congruence].
  destruct (PyFloat.parse_number _); congruence.
Qed.

Lemma float_of_str_empty : PyFloat.float_of_str "" = Raise ValueError.
Proof. reflexivity. Qed.

Lemma truthy_false s : truthy s = false -> s = "".
Proof. destruct s; [reflexivity|discriminate]. Qed.

(** One round of the loop adds what [keep_row] makes of the row. *)
Lemma _parse_airports_csv_loop_step row rest airports :
  _parse_airports_csv_loop (row :: rest) airports =
    _parse_airports_csv_loop rest
      (airports ++ match keep_row row with Some a => [a] | None => [] end).
Proof.
  cbn [_parse_airports_csv_loop]. unfold keep_row, get, REQUIRE_SCHEDULED_SERVICE.
  destruct (bool_decide _); cbn [negb andb]; [|rewrite app_nil_r; reflexivity].
  destruct (String.eqb _ "yes"); cbn [negb andb]; [|rewrite app_nil_r; reflexivity].
  destruct (truthy (strip _)); cbn [negb andb orb]; [|rewrite app_nil_r; reflexivity].
  destruct (csv.row_get row "latitude_deg") as [lat_s|];
    [|rewrite app_nil_r; reflexivity].
  destruct (csv.row_get row "longitude_deg") as [lon_s|];
    [|cbn; rewrite orb_true_r, app_nil_r; reflexivity].
  unfold opt_truthy, or_empty. cbn [PyFloat.float].
  destruct (truthy lat_s) eqn:Tlat; cbn [negb orb].
  - destruct (truthy lon_s) eqn:Tlon; cbn [negb].
    + destruct (PyFloat.float_of_str lat_s) as [la|e1] eqn:E1; cbn.
      * destruct (PyFloat.float_of_str lon_s) as [lo|e2] eqn:E2; cbn; [reflexivity|].
        rewrite (float_of_str_raises _ _ E2). cbn. rewrite app_nil_r. reflexivity.
      * rewrite (float_of_str_raises _ _ E1). cbn. rewrite app_nil_r. reflexivity.
    + rewrite (truthy_false _ Tlon), float_of_str_empty.
      destruct (PyFloat.float_of_str lat_s); rewrite app_nil_r; reflexivity.
  - rewrite (truthy_false _ Tlat), float_of_str_empty, app_nil_r. reflexivity.
Qed.

Lemma _parse_airports_csv_loop_spec rows :
  forall airports,
    _parse_airports_csv_loop rows airports = Ok (airports ++ omap keep_row rows).
Proof.
  induction rows as [|row rest IH]; intros airports.
  - cbn. rewrite app_nil_r. reflexivity.
  - rewrite _parse_airports_csv_loop_step, IH. cbn [omap list_omap].
    destruct (keep_row row); [rewrite <- app_assoc|rewrite app_nil_r]; reflexivity.
Qed.

Lemma _parse_airports_csv_omap text :
  _parse_airports_csv text =
    Res.bind (csv.DictReader text) (fun rows => Ok (omap keep_row rows)).
Proof.
  unfold _parse_airports_csv.
  destruct (csv.DictReader text) as [rows|e]; [|reflexivity].
  cbn [Res.bind]. apply _parse_airports_csv_loop_spec.
Qed.

Lemma keep_row_Some row a :
  keep_row row = Some a ->
  name a = get row "name"
  /\ name a <> ""
  /\ PyFloat.float (csv.row_get row "latitude_deg") = Ok (lat a)
  /\ PyFloat.float (csv.row_get row "longitude_deg") = Ok (lon a).
Proof.
  unfold keep_row, get.
  destruct (bool_decide _); [|discriminate].
  destruct (String.eqb _ "yes"); [|discriminate].
  destruct (truthy (strip _)) eqn:T; [|discriminate]. cbn [andb].
  destruct (csv.row_get row "latitude_deg") as [lat_s|]; [|discriminate].
  destruct (csv.row_get row "longitude_deg") as [lon_s|]; [|discriminate].
  cbn [PyFloat.float].
  destruct (PyFloat.float_of_str lat_s); [|discriminate].
  destruct (PyFloat.float_of_str lon_s); [|discriminate].
  intros [= <-]. cbn. repeat split; try reflexivity.
  intros E. rewrite E in T. discriminate.
Qed.
End FilterProperties.

(** C7, as the module has it. For every text the CSV reader accepts,
    [_parse_airports_csv] returns, in the order of the rows, the airports
    of exactly the rows that [keep_row] keeps: the type, read without
    surrounding white space, is [large_airport] or [medium_airport]; the
    scheduled-service field, in lower case and without surrounding white
    space, is [yes]; the name without surrounding white space is not empty;
    latitude and longitude are present and convert to floats. The other rows
    are left out without an exception; the only exception is the reader's,
    on a text it rejects. *)
Theorem parse_airports_csv_keeps (text : string) :
  _parse_airports_csv text =
    Res.bind (csv.DictReader text) (fun rows => Ok (omap keep_row rows)).
Proof. apply _parse_airports_csv_omap. Qed.

(** C7 as stated fails: the row [large_airport,yes, ,1,2] has a type of
    the set, the flag [yes], a name that is not the empty string (one
    blank) and coordinates that convert, and it is not kept. *)
Lemma parse_airports_csv_drops_blank_name :
  _parse_airports_csv Examples.blank_name_csv = Ok []
  /\ exists row,
       csv.DictReader Examples.blank_name_csv = Ok [row]
       /\ keeps_as_stated row = true.
Proof.
  split; [vm_compute; reflexivity|].
  eexists. split; [vm_compute; reflexivity|]. vm_compute. reflexivity.
Qed.

(** C2, as the module has it. Every record of the list
    [_parse_airports_csv] returns comes from a row of the reader: its name
    is the name field without surrounding white space and is not empty, its
    latitude and longitude are the floats the two coordinate fields convert
    to. No bound is checked on them. *)
Theorem parse_airports_csv_records (text : string) (airports : list airport) :
  _parse_airports_csv text = Ok airports ->
  exists rows,
    csv.DictReader text = Ok rows
    /\ forall a, a ∈ airports ->
         exists row,
           row ∈ rows
           /\ name a = get row "name"
           /\ name a <> ""
           /\ PyFloat.float (csv.row_get row "latitude_deg") = Ok (lat a)
           /\ PyFloat.float (csv.row_get row "longitude_deg") = Ok (lon a).
Proof.
  rewrite _parse_airports_csv_omap.
  destruct (csv.DictReader text) as [rows|e]; [|discriminate].
  cbn [Res.bind]. intros [= <-].
  exists rows. split; [reflexivity|].
  intros a Ha. apply list_elem_of_omap in Ha as (row & Hrow & Hkeep).
  exists row. split; [exact Hrow|]. apply keep_row_Some. exact Hkeep.
Qed.

Lemma parse_airports_csv_records_witness :
  exists rows,
    csv.DictReader Examples.london_csv = Ok rows
    /\ forall a, a ∈ [Examples.heathrow; Examples.gatwick] ->
         exists row,
           row ∈ rows
           /\ name a = get row "name"
           /\ name a <> ""
           /\ PyFloat.float (csv.row_get row "latitude_deg") = Ok (lat a)
           /\ PyFloat.float (csv.row_get row "longitude_deg") = Ok (lon a).
Proof.
  apply (parse_airports_csv_records Examples.london_csv).
  vm_compute. reflexivity.
Defined.

(** C2 as stated fails: a row whose latitude field is [1000] gives a
    record with that latitude, outside [-90, 90]. *)
Lemma parse_airports_csv_out_of_bounds :
  _parse_airports_csv Examples.far_north_csv
  = Ok [mkAirport "Far North" 1000 0]
  /\ coordinates_in_bounds 1000 0 = false.
Proof. split; vm_compute; reflexivity. Qed.

(** ** The CSV reader raises [csv.Error] only *)

Section CsvProperties.
Import csv.

Lemma parse_add_char_raises self c e :
  parse_add_char self c = Raise e -> e = csv_Error.
Proof. unfold parse_add_char. case_match; congruence. Qed.

Lemma parse_process_char_raises self c e :
  parse_process_char self c = Raise e -> e = csv_Error.
Proof.
  unfold parse_process_char, start_field, Res.bind.
  intros H.
  repeat (case_match; simplify_eq/=);
    try congruence;
    match goal with
    | H : parse_add_char _ _ = Raise _ |- _ =>
        exact (parse_add_char_raises _ _ _ H)
    end.
Qed.

Lemma process_line_raises line : forall self e,
  process_line self line = Raise e -> e = csv_Error.
Proof.
  induction line as [|c r IH]; intros self e; cbn.
  - apply parse_process_char_raises.
  - destruct (parse_process_char self (Some c)) eqn:E; cbn.
    + apply IH.
    + intros [= <-]. eapply parse_process_char_raises; eassumption.
Qed.

Lemma reader_from_raises lines : forall self e,
  reader_from self lines = Raise e -> e = csv_Error.
Proof.
  induction lines as [|line rest IH]; intros self e; cbn.
  - repeat case_match; discriminate.
  - destruct (process_line self line) as [s|e'] eqn:E; cbn.
    + destruct (state s); try apply IH.
      destruct (reader_from parse_reset rest) eqn:E'; cbn; [discriminate|].
      intros [= <-]. eapply IH; eassumption.
    + intros [= <-]. eapply process_line_raises; eassumption.
Qed.

Lemma DictReader_raises text e :
  DictReader text = Raise e -> e = csv_Error.
Proof.
  unfold DictReader, reader.
  destruct (reader_from _ _) eqn:E; cbn.
  - case_match; discriminate.
  - intros [= <-]. eapply reader_from_raises; eassumption.
Qed.
End CsvProperties.

(** ** The cache manager and the public function *)

Section WorldProperties.
Local Open Scope float_scope.

Lemma _parse_airports_csv_raises text e :
  _parse_airports_csv text = Raise e -> e = csv_Error.
Proof.
  rewrite _parse_airports_csv_omap.
  destruct (csv.DictReader text) eqn:E; cbn; [discriminate|].
  intros [= <-]. eapply DictReader_raises; eassumption.
Qed.

Lemma out_of_range_not_in_bounds lat lon :
  out_of_range lat lon = true -> coordinates_in_bounds lat lon = false.
Proof.
  unfold out_of_range, coordinates_in_bounds. intros H.
  repeat (apply orb_true_iff in H as [H | H]);
    apply FloatOrder.ltb_leb_false in H; rewrite H;
    rewrite ?andb_false_r; reflexivity.
Qed.

Ltac io_unfold :=
  unfold load_airports_once, _parquet_is_fresh, _read_parquet,
    _write_parquet, _download_text, pq_read_table, pq_write_table,
    requests_get_text, os_path_exists, os_path_getmtime, time_time,
    IO.bind, IO.try_except, IO.ret, IO.lift, IO.get_cache, IO.set_cache,
    IO.set_parquet, IO.log, except_Exception, except_RequestException,
    fetch_and_normalize, reaches_download, fresh_and_readable, Res.is_ok
    in *.

Ltac io_cases := repeat (case_match; simplify_eq/=).

(** What [load_airports_once] returns is what it leaves in the cache
    slot. *)
Lemma load_airports_once_caches force_refresh w l w' :
  load_airports_once force_refresh w = (Ok l, w') ->
  _AIRPORTS_CACHE w' = l.
Proof.
  io_unfold. destruct w as [cache max_km file now net dsk tr]. cbn.
  intros H. io_cases; reflexivity.
Qed.

(** An exception of [load_airports_once] is an exception of
    [_parse_airports_csv] on the downloaded text. *)
Lemma load_airports_once_raises force_refresh w e w' :
  load_airports_once force_refresh w = (Raise e, w') ->
  fetch_and_normalize w = Raise e.
Proof.
  io_unfold. destruct w as [cache max_km file now net dsk tr]. cbn.
  intros H. io_cases; try reflexivity; try congruence.
  all: repeat match goal with
       | E : ?x = Some _ |- context [?x] => rewrite E
       | E : ?x = None |- context [?x] => rewrite E
       end; cbn; congruence.
Qed.

(** Without an exception of [_parse_airports_csv] there is none of
    [load_airports_once]. *)
Lemma load_airports_once_returns force_refresh w airports :
  fetch_and_normalize w = Ok airports ->
  exists l w', load_airports_once force_refresh w = (Ok l, w').
Proof.
  intros Hfetch.
  destruct (load_airports_once force_refresh w) as [[l|e] w'] eqn:E;
    [eauto|].
  apply load_airports_once_raises in E. congruence.
Qed.


Lemma cons_app_eq {A} (x : A) l k s : l = k ++ s -> x :: l = (x :: k) ++ s.
Proof. intros ->. reflexivity. Qed.

(** Closes [tr ++ l = tr ++ ?evs ++ s] for explicit [l] and [s]. *)
Ltac trace_suffix :=
  cbn [trace];
  etransitivity; [rewrite <- ?app_assoc; cbn [app]; reflexivity|];
  apply (f_equal (app _));
  repeat first [ refine (eq_sym (app_nil_l _))
               | refine (cons_app_eq _ _ _ _ _) ].

(** The last resort. When the call reaches the download, the download
    gives no airports and the parquet file exists, whatever its age, the
    call ends with reading that file and returns what the file holds, or
    the empty list when the file cannot be read. *)
Lemma load_airports_once_last_resort force_refresh w f :
  reaches_download force_refresh w = true ->
  fetch_and_normalize w = Ok [] ->
  parquet w = Some f ->
  exists w' evs,
    load_airports_once force_refresh w
    = (Ok (match table f with Ok l => l | Raise _ => [] end), w')
    /\ trace w' = trace w ++ evs ++ [ev_exists; ev_read_table].
Proof.
  io_unfold. destruct w as [cache max_km file now net dsk tr]. cbn.
  intros Hreach Hfetch ->.
  destruct force_refresh, cache as [|a cache]; cbn in *; try discriminate.
  all: io_cases; try discriminate.
  all: eexists; eexists; (split; [reflexivity|]); trace_suffix.
Qed.

(** The terminal fallback. When the call reaches the download, the
    download gives no airports and there is no parquet file, the call
    returns the empty list. *)
Lemma load_airports_once_terminal force_refresh w :
  reaches_download force_refresh w = true ->
  fetch_and_normalize w = Ok [] ->
  parquet w = None ->
  exists w', load_airports_once force_refresh w = (Ok [], w').
Proof.
  io_unfold. destruct w as [cache max_km file now net dsk tr]. cbn.
  intros Hreach Hfetch ->.
  destruct force_refresh, cache as [|a cache]; cbn in *; try discriminate.
  all: io_cases; try discriminate.
  all: eexists; reflexivity.
Qed.


(** A populated cache slot is returned as it is, with no input or
    output. *)
Lemma load_airports_once_populated w :
  nonempty (_AIRPORTS_CACHE w) = true ->
  load_airports_once false w = (Ok (_AIRPORTS_CACHE w), w).
Proof.
  unfold load_airports_once, IO.bind, IO.get_cache, IO.ret.
  intros ->. reflexivity.
Qed.
End WorldProperties.

(** C3, where the module departs from it. The primary source answers with
    a table whose lines end with a carriage return alone. The CSV reader
    rejects that text, [_parse_airports_csv] is called outside of any
    [try], and the exception leaves [load_airports_once]. (The rest of the
    claim holds: see [load_airports_once_raises],
    [load_airports_once_last_resort] and [load_airports_once_terminal].) *)
Theorem load_airports_once_raises_csv_Error :
  fst (load_airports_once false
         (Examples.fresh_process (Some Examples.cr_only_csv) None))
  = Raise csv_Error.
Proof. vm_compute. reflexivity. Qed.

(** C4. For a latitude or a longitude beyond its bounds,
    [get_nearest_airport] returns the response with no airport and the
    error [Invalid coordinates], and leaves the world as it was: the cache
    slot and the parquet file are unchanged and the trace has no new
    event, so that nothing was read or loaded. *)
Theorem get_nearest_airport_invalid `{M : math.Module}
        (lat lon : float) (refresh_airports : bool) (w : World) :
  out_of_range lat lon = true ->
  get_nearest_airport lat lon refresh_airports w
  = (Ok invalid_coordinates, w).
Proof.
  intros H. apply out_of_range_not_in_bounds in H.
  unfold coordinates_in_bounds in H.
  unfold get_nearest_airport. rewrite H. reflexivity.
Qed.

Lemma get_nearest_airport_invalid_witness :
  get_nearest_airport (M := Examples.taylor_math) 91 0 false
    (Examples.fresh_process (Some Examples.london_csv) None)
  = (Ok invalid_coordinates,
     Examples.fresh_process (Some Examples.london_csv) None)
  /\ get_nearest_airport (M := Examples.taylor_math) 0 181 true
       Examples.offline_process
     = (Ok invalid_coordinates, Examples.offline_process).
Proof.
  split.
  - apply (get_nearest_airport_invalid (M := Examples.taylor_math)).
    vm_compute. reflexivity.
  - apply (get_nearest_airport_invalid (M := Examples.taylor_math)).
    vm_compute. reflexivity.
Defined.



(* ================================================================== *)
(** * Further properties *)

(** ** Comparisons with a NaN *)

Module FloatNaN.
Import FloatOrder.
Local Open Scope float_scope.

Lemma SFnan_ltb_l x y : SFeqb x x = false -> SFltb x y = false.
Proof. sf_destruct x; sf_destruct y; intros; sf_solve. Qed.

Lemma SFnan_leb_l x y : SFeqb x x = false -> SFleb x y = false.
Proof. sf_destruct x; sf_destruct y; intros; sf_solve. Qed.

Lemma SFnan_leb_r x y : SFeqb x x = false -> SFleb y x = false.
Proof. sf_destruct x; sf_destruct y; intros; sf_solve. Qed.

Lemma nan_ltb_l (x y : float) : is_number x = false -> (x <? y) = false.
Proof. to_spec. apply SFnan_ltb_l. Qed.

Lemma nan_leb_l (x y : float) : is_number x = false -> (x <=? y) = false.
Proof. to_spec. apply SFnan_leb_l. Qed.

Lemma nan_leb_r (x y : float) : is_number x = false -> (y <=? x) = false.
Proof. to_spec. apply SFnan_leb_r. Qed.
End FloatNaN.

(** ** The search *)

Section SearchResults.
Context `{M : math.Module}.
Local Open Scope float_scope.

(** What [nearest_airport] returns: never an error, and a name only of an
    airport of the list that is within the maximum distance. *)
Lemma nearest_airport_result max_km lat lon airports found err :
  nearest_airport max_km lat lon airports = Ok (found, err) ->
  err = None
  /\ forall n, found = Some n ->
       exists a c d,
         a ∈ airports /\ name a = n
         /\ math.cos (math.radians lat) = Ok c
         /\ distance_to lat lon c a = Ok d
         /\ (max_km <? d) = false
         /\ (d <? infinity) = true.
Proof.
  unfold nearest_airport. destruct airports as [|a0 rest].
  - cbn. intros [= <- <-]. split; [reflexivity|discriminate].
  - cbn [nonempty negb].
    destruct (math.cos (math.radians lat)) as [c|e]; [|discriminate].
    cbn [Res.bind].
    destruct (nearest_airport_loop _ _ _ _ _ _ _) as [[bn bd]|e] eqn:Hloop;
      [|discriminate].
    cbn [Res.bind].
    destruct (max_km <? bd) eqn:Far; intros [= <- <-];
      (split; [reflexivity|]); [discriminate|].
    intros n ->.
    destruct (loop_outcome _ _ _ _ _ _ _ Hloop)
      as [[[= -> ->] _] | (l1 & a & l2 & d & Hl & [= Hn ->] & Ed & Lt & _)].
    exists a, c, d. rewrite Hl. repeat split; auto.
    apply elem_of_app. right. left.
Qed.

Lemma nearest_airport_loop_skips lat lon c a d l1 l2 :
  distance_to lat lon c a = Ok d ->
  is_number d = false ->
  forall bn bd,
    nearest_airport_loop lat lon (math.radians lat) c (l1 ++ a :: l2) bn bd
    = nearest_airport_loop lat lon (math.radians lat) c (l1 ++ l2) bn bd.
Proof.
  intros Ed Nd bn bd. rewrite !loop_app.
  destruct (nearest_airport_loop _ _ _ _ l1 bn bd) as [[bn' bd']|e];
    [|reflexivity].
  cbn [Res.bind fst snd].
  rewrite (loop_cons _ _ _ _ _ _ _ _ Ed).
  rewrite (FloatNaN.nan_ltb_l _ _ Nd). reflexivity.
Qed.
End SearchResults.

(** X1. [nearest_airport] never returns an error string, and the name it
    returns is the name of an airport of the list whose distance from the
    query point is below infinity and not above the maximum distance. *)
Theorem nearest_airport_returns_listed `{M : math.Module}
        (max_km lat lon : float) (airports : list airport)
        (found err : option string) :
  nearest_airport max_km lat lon airports = Ok (found, err) ->
  err = None
  /\ forall n, found = Some n ->
       exists a c d,
         a ∈ airports /\ name a = n
         /\ math.cos (math.radians lat) = Ok c
         /\ distance_to lat lon c a = Ok d
         /\ (max_km <? d)%float = false
         /\ (d <? infinity)%float = true.
Proof. apply nearest_airport_result. Qed.

Lemma nearest_airport_returns_listed_witness :
  @None string = None
  /\ forall n, Some "Heathrow" = Some n ->
       exists a c d,
         a ∈ [Examples.heathrow; Examples.gatwick] /\ name a = n
         /\ math.cos (Module := Examples.taylor_math)
              (math.radians (Module := Examples.taylor_math)
                 Examples.query_lat) = Ok c
         /\ distance_to (M := Examples.taylor_math) Examples.query_lat
              Examples.query_lon c a = Ok d
         /\ (MAX_AIRPORT_DISTANCE_KM_default <? d)%float = false
         /\ (d <? infinity)%float = true.
Proof.
  apply (nearest_airport_returns_listed (M := Examples.taylor_math)
           MAX_AIRPORT_DISTANCE_KM_default Examples.query_lat
           Examples.query_lon [Examples.heathrow; Examples.gatwick]).
  vm_compute. reflexivity.
Defined.

(** X2. [nearest_airport] raises only with the [math] module: when the
    cosine of the query latitude and the distance to every airport of the
    list are computed without exception, it returns. *)
Theorem nearest_airport_no_exception `{M : math.Module}
        (max_km lat lon cos_phi1 : float) (airports : list airport) :
  math.cos (math.radians lat) = Ok cos_phi1 ->
  (forall a, a ∈ airports ->
     exists d, distance_to lat lon cos_phi1 a = Ok d) ->
  exists found, nearest_airport max_km lat lon airports = Ok (found, None).
Proof.
  intros Hcos Hd. unfold nearest_airport.
  destruct (nonempty airports); cbn [negb]; [|eauto].
  rewrite Hcos. cbn [Res.bind].
  destruct (loop_total lat lon cos_phi1 airports Hd None infinity)
    as [[bn bd] ->].
  cbn [Res.bind]. destruct (max_km <? bd)%float; eauto.
Qed.

Lemma nearest_airport_no_exception_witness :
  exists found,
    nearest_airport (M := Examples.taylor_math)
      MAX_AIRPORT_DISTANCE_KM_default Examples.query_lat Examples.query_lon
      [Examples.gatwick; Examples.nowhere] = Ok (found, None).
Proof.
  apply (nearest_airport_no_exception (M := Examples.taylor_math)
           _ _ _ Examples.query_cos).
  - vm_compute. reflexivity.
  - intros a Ha.
    apply elem_of_cons in Ha as [-> | Ha];
      [|apply elem_of_cons in Ha as [-> | Ha]; [|inversion Ha]];
      eexists; vm_compute; reflexivity.
Defined.

(** X3. An airport whose distance from the query point is a NaN is never
    selected: [nearest_airport] returns what it returns for the list
    without that airport. *)
Theorem nearest_airport_ignores_nan `{M : math.Module}
        (max_km lat lon cos_phi1 : float) (l1 : list airport) (a : airport)
        (l2 : list airport) (d : float) :
  math.cos (math.radians lat) = Ok cos_phi1 ->
  distance_to lat lon cos_phi1 a = Ok d ->
  is_number d = false ->
  nearest_airport max_km lat lon (l1 ++ a :: l2)
  = nearest_airport max_km lat lon (l1 ++ l2).
Proof.
  intros Hcos Ed Nd. unfold nearest_airport.
  assert (Hn : nonempty (l1 ++ a :: l2) = true) by (destruct l1; reflexivity).
  rewrite Hn, Hcos. cbn [negb Res.bind].
  rewrite (nearest_airport_loop_skips _ _ _ _ _ _ _ Ed Nd).
  destruct (l1 ++ l2) as [|b rest] eqn:El; [|reflexivity].
  cbn. destruct (max_km <? infinity)%float; reflexivity.
Qed.

Lemma nearest_airport_ignores_nan_witness :
  nearest_airport (M := Examples.taylor_math)
    MAX_AIRPORT_DISTANCE_KM_default Examples.query_lat Examples.query_lon
    ([Examples.gatwick] ++ Examples.nowhere :: [Examples.heathrow])
  = nearest_airport (M := Examples.taylor_math)
      MAX_AIRPORT_DISTANCE_KM_default Examples.query_lat Examples.query_lon
      ([Examples.gatwick] ++ [Examples.heathrow]).
Proof.
  apply (nearest_airport_ignores_nan (M := Examples.taylor_math)
           _ _ _ Examples.query_cos _ _ _ nan).
  - vm_compute. reflexivity.
  - vm_compute. reflexivity.
  - vm_compute. reflexivity.
Defined.

(** X4. A larger maximum distance never loses an airport: what
    [nearest_airport] finds under one maximum it finds under every maximum
    that is at least as large. *)
Theorem nearest_airport_larger_radius `{M : math.Module}
        (max_km max_km' lat lon : float) (airports : list airport)
        (n : string) (err : option string) :
  nearest_airport max_km lat lon airports = Ok (Some n, err) ->
  (max_km <=? max_km')%float = true ->
  nearest_airport max_km' lat lon airports = Ok (Some n, err).
Proof.
  unfold nearest_airport.
  destruct (nonempty airports); cbn [negb]; [|discriminate].
  destruct (math.cos (math.radians lat)) as [c|e]; [|discriminate].
  cbn [Res.bind].
  destruct (nearest_airport_loop _ _ _ _ _ _ _) as [[bn bd]|e];
    [|discriminate].
  cbn [Res.bind].
  destruct (max_km <? bd)%float eqn:Far; [discriminate|].
  intros [= -> <-] Hle.
  destruct (max_km' <? bd)%float eqn:Far'; [|reflexivity].
  rewrite (FloatOrder.leb_ltb_trans _ _ _ Hle Far') in Far. discriminate.
Qed.

Lemma nearest_airport_larger_radius_witness :
  nearest_airport (M := Examples.taylor_math) 1000 Examples.query_lat
    Examples.query_lon [Examples.heathrow; Examples.gatwick]
  = Ok (Some "Heathrow", None).
Proof.
  apply (nearest_airport_larger_radius (M := Examples.taylor_math)
           MAX_AIRPORT_DISTANCE_KM_default).
  - vm_compute. reflexivity.
  - vm_compute. reflexivity.
Defined.

(** ** The public function *)

Section PublicResults.
Context `{M : math.Module}.
Local Open Scope float_scope.

Lemma if_truthy_Some x n :
  if_truthy x = Some n -> x = Some n /\ n <> ""%string.
Proof.
  unfold if_truthy, Str.opt_truthy.
  destruct x as [s|]; cbn; [|discriminate].
  destruct s; cbn; [discriminate|].
  intros [= <-]. split; [reflexivity|discriminate].
Qed.

Lemma get_nearest_airport_in_bounds lat lon refresh_airports w :
  coordinates_in_bounds lat lon = true ->
  get_nearest_airport lat lon refresh_airports w
  = IO.bind (load_airports_once refresh_airports)
      (fun airports w1 =>
         IO.bind (IO.lift (nearest_airport (MAX_AIRPORT_DISTANCE_KM w1)
                                           lat lon airports))
                 (fun found =>
                    IO.ret (mkResponse (if_truthy (fst found))
                                       (if_truthy (snd found)))) w1) w.
Proof.
  unfold coordinates_in_bounds, get_nearest_airport. intros ->. reflexivity.
Qed.
End PublicResults.

(** X5. A latitude or a longitude that is a NaN is rejected like one out
    of range: the response is [Invalid coordinates] and the world is left
    as it was. *)
Theorem get_nearest_airport_nan `{M : math.Module}
        (lat lon : float) (refresh_airports : bool) (w : World) :
  is_number lat = false \/ is_number lon = false ->
  get_nearest_airport lat lon refresh_airports w
  = (Ok invalid_coordinates, w).
Proof.
  intros H. unfold get_nearest_airport.
  destruct H as [H | H].
  - rewrite (FloatNaN.nan_leb_r _ (-90)%float H). reflexivity.
  - rewrite (FloatNaN.nan_leb_r _ (-180)%float H).
    rewrite andb_false_r. reflexivity.
Qed.

Lemma get_nearest_airport_nan_witness :
  get_nearest_airport (M := Examples.taylor_math) nan 0 false
    Examples.warm_process
  = (Ok invalid_coordinates, Examples.warm_process).
Proof.
  apply (get_nearest_airport_nan (M := Examples.taylor_math)).
  left. vm_compute. reflexivity.
Defined.

(** X6. A lookup on a populated cache slot, without forced refresh, is
    pure: for coordinates in bounds it answers with what [nearest_airport]
    finds in the slot under the current maximum distance, with no error,
    and leaves the world as it was (no file, clock or network event). *)
Theorem get_nearest_airport_warm `{M : math.Module}
        (lat lon : float) (w : World) (found err : option string) :
  coordinates_in_bounds lat lon = true ->
  nonempty (_AIRPORTS_CACHE w) = true ->
  nearest_airport (MAX_AIRPORT_DISTANCE_KM w) lat lon (_AIRPORTS_CACHE w)
  = Ok (found, err) ->
  get_nearest_airport lat lon false w
  = (Ok (mkResponse (if_truthy found) None), w).
Proof.
  intros Hb Hc Hn.
  rewrite (get_nearest_airport_in_bounds _ _ _ _ Hb).
  unfold IO.bind at 1. rewrite (load_airports_once_populated _ Hc).
  unfold IO.bind, IO.lift, IO.ret. rewrite Hn. cbn [fst snd].
  destruct (nearest_airport_result _ _ _ _ _ _ Hn) as [-> _].
  reflexivity.
Qed.

Lemma get_nearest_airport_warm_witness :
  get_nearest_airport (M := Examples.taylor_math) Examples.query_lat
    Examples.query_lon false Examples.warm_process
  = (Ok (mkResponse (if_truthy (Some "Heathrow")) None),
     Examples.warm_process).
Proof.
  apply (get_nearest_airport_warm (M := Examples.taylor_math)
           _ _ _ (Some "Heathrow") None).
  - vm_compute. reflexivity.
  - vm_compute. reflexivity.
  - vm_compute. reflexivity.
Defined.

(** X7. The shape of a response of [get_nearest_airport]. The airport is
    never the empty string. Either the response is [Invalid coordinates]
    with no airport, the coordinates are out of bounds and the world is
    unchanged; or there is no error, the coordinates are in bounds and a
    returned airport is the name of an airport in the cache slot as the
    call leaves it. *)
Theorem get_nearest_airport_response `{M : math.Module}
        (lat lon : float) (refresh_airports : bool) (w w' : World)
        (resp : response) :
  get_nearest_airport lat lon refresh_airports w = (Ok resp, w') ->
  airport_ resp <> Some ""
  /\ ((resp = invalid_coordinates /\ w' = w
       /\ coordinates_in_bounds lat lon = false)
      \/ (error_ resp = None
          /\ coordinates_in_bounds lat lon = true
          /\ forall n, airport_ resp = Some n ->
               exists a, a ∈ _AIRPORTS_CACHE w' /\ name a = n)).
Proof.
  destruct (coordinates_in_bounds lat lon) eqn:Hb.
  - rewrite (get_nearest_airport_in_bounds _ _ _ _ Hb).
    unfold IO.bind at 1.
    destruct (load_airports_once refresh_airports w)
      as [[airports|e] w1] eqn:Hload; [|discriminate].
    apply load_airports_once_caches in Hload.
    unfold IO.bind, IO.lift, IO.ret.
    destruct (nearest_airport _ _ _ _) as [[found err]|e] eqn:Hn;
      [|discriminate].
    intros [= <- <-]. cbn [fst snd airport_ error_].
    destruct (nearest_airport_result _ _ _ _ _ _ Hn) as [-> Hfound].
    split.
    + intros E. apply if_truthy_Some in E as [_ E]. congruence.
    + right. split; [reflexivity|]. split; [reflexivity|].
      intros n E. apply if_truthy_Some in E as [-> _].
      destruct (Hfound n eq_refl) as (a & _ & _ & Ha & Hname & _).
      exists a. rewrite Hload. auto.
  - unfold get_nearest_airport. unfold coordinates_in_bounds in Hb.
    rewrite Hb. cbn. intros [= <- <-].
    split; [discriminate|]. left. auto.
Qed.

Lemma get_nearest_airport_response_witness :
  airport_ (mkResponse (Some "Heathrow") None) <> Some ""
  /\ ((mkResponse (Some "Heathrow") None = invalid_coordinates
       /\ snd (get_nearest_airport (M := Examples.taylor_math)
                 Examples.query_lat Examples.query_lon false
                 (Examples.fresh_process (Some Examples.london_csv) None))
          = Examples.fresh_process (Some Examples.london_csv) None
       /\ coordinates_in_bounds Examples.query_lat Examples.query_lon = false)
      \/ (error_ (mkResponse (Some "Heathrow") None) = None
          /\ coordinates_in_bounds Examples.query_lat Examples.query_lon
             = true
          /\ forall n, airport_ (mkResponse (Some "Heathrow") None) = Some n ->
               exists a,
                 a ∈ _AIRPORTS_CACHE
                       (snd (get_nearest_airport (M := Examples.taylor_math)
                               Examples.query_lat Examples.query_lon false
                               (Examples.fresh_process
                                  (Some Examples.london_csv) None)))
                 /\ name a = n)).
Proof.
  apply (get_nearest_airport_response (M := Examples.taylor_math)
           Examples.query_lat Examples.query_lon false
           (Examples.fresh_process (Some Examples.london_csv) None)).
  vm_compute. reflexivity.
Defined.

(** X8. With nothing to search, nothing is found, whatever the [math]
    module does: for coordinates in bounds, when [load_airports_once]
    returns the empty list, the response has no airport and no error. *)
Theorem get_nearest_airport_no_data `{M : math.Module}
        (lat lon : float) (refresh_airports : bool) (w w' : World) :
  coordinates_in_bounds lat lon = true ->
  load_airports_once refresh_airports w = (Ok [], w') ->
  get_nearest_airport lat lon refresh_airports w
  = (Ok (mkResponse None None), w').
Proof.
  intros Hb Hload.
  rewrite (get_nearest_airport_in_bounds _ _ _ _ Hb).
  unfold IO.bind at 1. rewrite Hload. reflexivity.
Qed.

Lemma get_nearest_airport_no_data_witness :
  get_nearest_airport (M := Examples.taylor_math) Examples.query_lat
    Examples.query_lon false (Examples.fresh_process None None)
  = (Ok (mkResponse None None),
     snd (load_airports_once false (Examples.fresh_process None None))).
Proof.
  apply (get_nearest_airport_no_data (M := Examples.taylor_math)).
  - vm_compute. reflexivity.
  - vm_compute. reflexivity.
Defined.

(** ** The record filter, further *)

Section FilterResults.
Import Str.

Lemma lstrip_head s :
  lstrip s = "" \/ exists c r, lstrip s = String c r /\ isspace c = false.
Proof.
  induction s as [|c r IH]; cbn; [auto|].
  destruct (isspace c) eqn:E; [exact IH|]. right. eauto.
Qed.

Lemma rstrip_cons c r :
  rstrip (String c r)
  = match rstrip r with
    | "" => if isspace c then "" else String c ""
    | r' => String c r'
    end.
Proof. reflexivity. Qed.

Lemma rstrip_idempotent s : rstrip (rstrip s) = rstrip s.
Proof.
  induction s as [|c r IH]; [reflexivity|].
  rewrite rstrip_cons.
  destruct (rstrip r) as [|c' r'] eqn:Er.
  - destruct (isspace c) eqn:E; [reflexivity|].
    rewrite rstrip_cons. cbn. rewrite E. reflexivity.
  - rewrite rstrip_cons, IH. reflexivity.
Qed.

Lemma rstrip_head c r :
  isspace c = false -> exists r', rstrip (String c r) = String c r'.
Proof.
  intros E. rewrite rstrip_cons. destruct (rstrip r); [rewrite E|]; eauto.
Qed.

Lemma strip_idempotent s : strip (strip s) = strip s.
Proof.
  unfold strip.
  destruct (lstrip_head s) as [-> | (c & r & -> & E)]; [reflexivity|].
  destruct (rstrip_head c r E) as [r' Er]. rewrite Er.
  cbn [lstrip]. rewrite E. rewrite <- Er. apply rstrip_idempotent.
Qed.

Lemma row_get_make_row key fieldnames : forall record d,
  key ∉ fieldnames ->
  csv.row_get (csv.make_row fieldnames record d) key = csv.row_get d key.
Proof.
  induction fieldnames as [|k ks IH]; intros record d Hk.
  - destruct record; reflexivity.
  - apply not_elem_of_cons in Hk as [Hne Hk].
    assert (Hins : forall v, csv.row_get (<[k := v]> d) key = csv.row_get d key).
    { intros v. unfold csv.row_get. rewrite lookup_insert_ne by congruence.
      reflexivity. }
    destruct record as [|v vs]; cbn; rewrite IH by exact Hk; apply Hins.
Qed.

Lemma keep_row_missing row key :
  key ∈ required_columns ->
  csv.row_get row key = None ->
  keep_row row = None.
Proof.
  unfold required_columns. intros Hk Hrow.
  unfold keep_row.
  repeat (apply elem_of_cons in Hk as [-> | Hk]); [..|inversion Hk];
    rewrite Hrow; cbn.
  - reflexivity.
  - rewrite andb_false_r. reflexivity.
  - rewrite andb_false_r. reflexivity.
  - destruct (_ && _); reflexivity.
  - destruct (_ && _); [|reflexivity].
    destruct (csv.row_get row "latitude_deg"); reflexivity.
Qed.

Lemma omap_keep_row_none rows :
  (forall row, row ∈ rows -> keep_row row = None) ->
  omap keep_row rows = [].
Proof.
  induction rows as [|row rest IH]; intros H; [reflexivity|].
  cbn. rewrite (H row) by left. apply IH. intros r Hr. apply H. right. exact Hr.
Qed.
End FilterResults.

(** X9. The only exception of [_parse_airports_csv] is the CSV reader's
    [csv.Error]: a field that does not convert to a float, a missing field
    or a wrong category never raises. *)
Theorem parse_airports_csv_only_csv_Error (text : string) (e : exn) :
  _parse_airports_csv text = Raise e ->
  e = csv_Error /\ csv.reader text = Raise csv_Error.
Proof.
  intros H. pose proof (_parse_airports_csv_raises _ _ H) as ->.
  split; [reflexivity|].
  rewrite _parse_airports_csv_omap in H.
  unfold csv.DictReader in H.
  destruct (csv.reader text) as [records|e] eqn:E; cbn in H.
  - destruct records; discriminate.
  - congruence.
Qed.

Lemma parse_airports_csv_only_csv_Error_witness :
  csv_Error = csv_Error
  /\ csv.reader Examples.cr_only_csv = Raise csv_Error.
Proof.
  apply (parse_airports_csv_only_csv_Error Examples.cr_only_csv).
  vm_compute. reflexivity.
Defined.

(** X10. A table whose header lacks one of the five columns the module
    looks up gives no airports, and no exception: the missing value counts
    as empty. *)
Theorem parse_airports_csv_missing_column
        (text : string) (fieldnames : list string)
        (records : list (list string)) (key : string) :
  csv.reader text = Ok (fieldnames :: records) ->
  key ∈ required_columns ->
  key ∉ fieldnames ->
  _parse_airports_csv text = Ok [].
Proof.
  intros Hr Hk Hf.
  rewrite _parse_airports_csv_omap. unfold csv.DictReader.
  rewrite Hr. cbn [Res.bind]. f_equal.
  apply omap_keep_row_none.
  intros row Hrow. apply list_elem_of_fmap in Hrow as (record & -> & _).
  apply (keep_row_missing _ key Hk).
  rewrite row_get_make_row by exact Hf. reflexivity.
Qed.

Lemma parse_airports_csv_missing_column_witness :
  _parse_airports_csv Examples.no_name_csv = Ok [].
Proof.
  apply (parse_airports_csv_missing_column Examples.no_name_csv
           ["type"; "scheduled_service"; "latitude_deg"; "longitude_deg"]
           [["large_airport"; "yes"; "51.4706"; "-0.4619"]] "name").
  - vm_compute. reflexivity.
  - vm_compute. right. right. left.
  - intros H.
    repeat (apply elem_of_cons in H as [H | H]; [discriminate H|]).
    inversion H.
Defined.

(** X11. The names of the airports [_parse_airports_csv] returns carry no
    white space at either end: stripping them again changes nothing. *)
Theorem parse_airports_csv_names_trimmed
        (text : string) (airports : list airport) :
  _parse_airports_csv text = Ok airports ->
  forall a, a ∈ airports -> Str.strip (name a) = name a.
Proof.
  rewrite _parse_airports_csv_omap.
  destruct (csv.DictReader text) as [rows|e]; [|discriminate].
  cbn [Res.bind]. intros [= <-] a Ha.
  apply list_elem_of_omap in Ha as (row & _ & Hkeep).
  apply keep_row_Some in Hkeep as (-> & _).
  unfold get. apply strip_idempotent.
Qed.

Lemma parse_airports_csv_names_trimmed_witness :
  Str.strip (name Examples.gatwick) = name Examples.gatwick.
Proof.
  apply (parse_airports_csv_names_trimmed Examples.london_csv
           [Examples.heathrow; Examples.gatwick]).
  - vm_compute. reflexivity.
  - right. left.
Defined.

(** ** The cache manager, further *)

Ltac cache_unfold :=
  unfold load_airports_once, _parquet_is_fresh, _read_parquet,
    _write_parquet, _download_text, pq_read_table, pq_write_table,
    requests_get_text, os_path_exists, os_path_getmtime, time_time,
    IO.bind, IO.try_except, IO.ret, IO.lift, IO.get_cache, IO.set_cache,
    IO.set_parquet, IO.log, except_Exception, except_RequestException,
    fetch_and_normalize, reaches_download, fresh_and_readable, Res.is_ok
    in *.

Ltac cache_cases := repeat (case_match; simplify_eq/=).

(** Rewrites with the equations the case analysis has left. *)
Ltac cache_subst :=
  repeat match goal with
  | E : ?x = _ |- context [?x] => rewrite E
  end.

(** Closes [trace w' = tr ++ ?evs] for an explicit trace. *)
Ltac trace_tail :=
  cbn [trace snd];
  etransitivity; [rewrite <- ?app_assoc; cbn [app]; reflexivity|];
  first [ reflexivity | symmetry; apply app_nil_r ].

(** X12. An exception of [load_airports_once] is a [csv.Error] of
    [_parse_airports_csv] on the downloaded text: a failing request, an
    unreadable or missing parquet file and a failing write never raise. *)
Theorem load_airports_once_only_csv_Error
        (force_refresh : bool) (w w' : World) (e : exn) :
  load_airports_once force_refresh w = (Raise e, w') ->
  e = csv_Error /\ fetch_and_normalize w = Raise csv_Error.
Proof.
  intros H. apply load_airports_once_raises in H.
  assert (e = csv_Error) as ->; [|auto].
  revert H. unfold fetch_and_normalize.
  destruct (Str.opt_truthy _); [|discriminate].
  apply _parse_airports_csv_raises.
Qed.

Lemma load_airports_once_only_csv_Error_witness :
  csv_Error = csv_Error
  /\ fetch_and_normalize
       (Examples.fresh_process (Some Examples.cr_only_csv) None)
     = Raise csv_Error.
Proof.
  apply (load_airports_once_only_csv_Error false
           (Examples.fresh_process (Some Examples.cr_only_csv) None)
           (snd (load_airports_once false
                   (Examples.fresh_process (Some Examples.cr_only_csv)
                                           None)))).
  vm_compute. reflexivity.
Defined.

(** X13. The last resort. When the call reaches the download, the download
    gives no airports and the parquet file exists, however old, the call
    ends with reading that file and returns what it holds, or the empty
    list when it cannot be read. *)
Theorem load_airports_once_reads_old_store
        (force_refresh : bool) (w : World) (f : ParquetFile) :
  reaches_download force_refresh w = true ->
  fetch_and_normalize w = Ok [] ->
  parquet w = Some f ->
  exists w' evs,
    load_airports_once force_refresh w
    = (Ok (match table f with Ok l => l | Raise _ => [] end), w')
    /\ trace w' = trace w ++ evs ++ [ev_exists; ev_read_table].
Proof. apply load_airports_once_last_resort. Qed.

Lemma load_airports_once_reads_old_store_witness :
  exists w' evs,
    load_airports_once false Examples.stale_process
    = (Ok [Examples.heathrow], w')
    /\ trace w' = trace Examples.stale_process
                  ++ evs ++ [ev_exists; ev_read_table].
Proof.
  apply (load_airports_once_reads_old_store false Examples.stale_process
           (mkParquet 1766880000 (Ok [Examples.heathrow]))).
  - vm_compute. reflexivity.
  - vm_compute. reflexivity.
  - vm_compute. reflexivity.
Defined.

(** X14. The terminal fallback. When the call reaches the download, the
    download gives no airports and there is no parquet file, the call
    returns the empty list. *)
Theorem load_airports_once_nothing_available
        (force_refresh : bool) (w : World) :
  reaches_download force_refresh w = true ->
  fetch_and_normalize w = Ok [] ->
  parquet w = None ->
  exists w', load_airports_once force_refresh w = (Ok [], w').
Proof. apply load_airports_once_terminal. Qed.

Lemma load_airports_once_nothing_available_witness :
  exists w',
    load_airports_once true (Examples.fresh_process None (Some ""))
    = (Ok [], w').
Proof.
  apply (load_airports_once_nothing_available true
           (Examples.fresh_process None (Some ""))).
  - vm_compute. reflexivity.
  - vm_compute. reflexivity.
  - vm_compute. reflexivity.
Defined.

(** X15. Once a call has returned a non-empty list, a further call without
    forced refresh returns the same list and leaves the world as it is: no
    file, clock or network operation. *)
Theorem load_airports_once_again
        (force_refresh : bool) (w w' : World) (l : list airport) :
  load_airports_once force_refresh w = (Ok l, w') ->
  l <> [] ->
  load_airports_once false w' = (Ok l, w').
Proof.
  intros H Hl. apply load_airports_once_caches in H.
  rewrite <- H. apply load_airports_once_populated.
  rewrite H. destruct l; [congruence|reflexivity].
Qed.

Lemma load_airports_once_again_witness :
  load_airports_once false
    (snd (load_airports_once false
            (Examples.fresh_process (Some Examples.london_csv) None)))
  = (Ok [Examples.heathrow; Examples.gatwick],
     snd (load_airports_once false
            (Examples.fresh_process (Some Examples.london_csv) None))).
Proof.
  apply (load_airports_once_again false
           (Examples.fresh_process (Some Examples.london_csv) None)).
  - vm_compute. reflexivity.
  - discriminate.
Defined.

(** X16. With an empty cache slot and no forced refresh, a parquet file
    younger than the time to live is read and returned as it is, an empty
    table included: the slot holds the table, the file is unchanged, and
    the call makes four operations (existence, clock, modification time,
    read) and no request. *)
Theorem load_airports_once_fresh_store
        (w : World) (f : ParquetFile) (l : list airport) :
  _AIRPORTS_CACHE w = [] ->
  parquet w = Some f ->
  (clock w - mtime f <? CACHE_TTL_SECONDS)%float = true ->
  table f = Ok l ->
  exists w',
    load_airports_once false w = (Ok l, w')
    /\ _AIRPORTS_CACHE w' = l
    /\ parquet w' = parquet w
    /\ trace w' = trace w ++ [ev_exists; ev_time; ev_getmtime; ev_read_table].
Proof.
  destruct w as [cache max_km file now net dsk tr], f as [modified content].
  cbn. intros -> -> Hfresh ->.
  cache_unfold. cbn. rewrite Hfresh. cbn.
  eexists. split; [reflexivity|]. cbn.
  repeat split. rewrite <- !app_assoc. reflexivity.
Qed.

Lemma load_airports_once_fresh_store_witness :
  exists w',
    load_airports_once false Examples.offline_process
    = (Ok [Examples.heathrow], w')
    /\ _AIRPORTS_CACHE w' = [Examples.heathrow]
    /\ parquet w' = parquet Examples.offline_process
    /\ trace w' = trace Examples.offline_process
                  ++ [ev_exists; ev_time; ev_getmtime; ev_read_table].
Proof.
  apply (load_airports_once_fresh_store Examples.offline_process
           (mkParquet 0x1.a5dfab8000000p+30 (Ok [Examples.heathrow]))).
  - reflexivity.
  - reflexivity.
  - vm_compute. reflexivity.
  - reflexivity.
Defined.

(** X17. A forced refresh goes straight to the network: its first
    operation is the request to the primary source, it never looks at the
    clock or at the age of the parquet file, and what it returns, requests
    and leaves on disk does not depend on the cache slot. *)
Theorem load_airports_once_forced (w : World) (l : list airport) :
  (exists evs,
     trace (snd (load_airports_once true w))
     = trace w ++ ev_get OURAIRPORTS_PRIMARY :: evs
     /\ (ev_time ∉ evs) /\ (ev_getmtime ∉ evs))
  /\ fst (load_airports_once true (snd (IO.set_cache l w)))
     = fst (load_airports_once true w)
  /\ trace (snd (load_airports_once true (snd (IO.set_cache l w))))
     = trace (snd (load_airports_once true w))
  /\ parquet (snd (load_airports_once true (snd (IO.set_cache l w))))
     = parquet (snd (load_airports_once true w)).
Proof.
  destruct w as [cache max_km file now net dsk tr].
  cache_unfold. cbn. rewrite !andb_false_r.
  cache_cases.
  all: split;
    [ eexists; split; [trace_tail|];
      split; intros Hin;
      repeat (apply elem_of_cons in Hin as [Hin | Hin]; [discriminate|]);
      inversion Hin
    | repeat split ].
Qed.

(** X18. When the call reaches the download and the download gives
    airports, they are returned and cached whether or not they can be
    saved: after a successful write the parquet file holds them with the
    current time as modification time, after a failed one the file is
    whatever the write left; the old file is not read. *)
Theorem load_airports_once_downloaded
        (force_refresh : bool) (w : World) (airports : list airport) :
  reaches_download force_refresh w = true ->
  fetch_and_normalize w = Ok airports ->
  airports <> [] ->
  exists w',
    load_airports_once force_refresh w = (Ok airports, w')
    /\ _AIRPORTS_CACHE w' = airports
    /\ parquet w'
       = match disk w with
         | Written => Some (mkParquet (clock w) (Ok airports))
         | WriteFails _ leftover => leftover
         end
    /\ tables_written (drop (length (trace w)) (trace w')) = [airports].
Proof.
  destruct w as [cache max_km file now net dsk tr].
  cache_unfold. cbn. intros Hreach Hfetch Hne.
  destruct airports as [|a1 airports]; [congruence|]. clear Hne.
  destruct force_refresh, cache as [|a0 cache]; cbn in *; try discriminate.
  all: cache_cases; try congruence.
  all: eexists; (split; [reflexivity|]); cbn;
    (split; [reflexivity|]); (split; [reflexivity|]).
  all: rewrite <- ?app_assoc; rewrite drop_app_length; reflexivity.
Qed.

Lemma load_airports_once_downloaded_witness :
  exists w',
    load_airports_once false
      (Examples.fresh_process None (Some Examples.london_csv))
    = (Ok [Examples.heathrow; Examples.gatwick], w')
    /\ _AIRPORTS_CACHE w' = [Examples.heathrow; Examples.gatwick]
    /\ parquet w'
       = match disk (Examples.fresh_process None
                       (Some Examples.london_csv)) with
         | Written =>
             Some (mkParquet
                     (clock (Examples.fresh_process None
                               (Some Examples.london_csv)))
                     (Ok [Examples.heathrow; Examples.gatwick]))
         | WriteFails _ leftover => leftover
         end
    /\ tables_written
         (drop (length (trace (Examples.fresh_process None
                                 (Some Examples.london_csv))))
               (trace w'))
       = [[Examples.heathrow; Examples.gatwick]].
Proof.
  apply (load_airports_once_downloaded false
           (Examples.fresh_process None (Some Examples.london_csv))).
  - vm_compute. reflexivity.
  - vm_compute. reflexivity.
  - discriminate.
Defined.

(** The outcomes of a call, one goal for each path through
    [load_airports_once], with the equations of the path as hypotheses. *)
Ltac cache_unfold_in E :=
  unfold load_airports_once, _parquet_is_fresh, _read_parquet,
    _write_parquet, _download_text, pq_read_table, pq_write_table,
    requests_get_text, os_path_exists, os_path_getmtime, time_time,
    IO.bind, IO.try_except, IO.ret, IO.lift, IO.get_cache, IO.set_cache,
    IO.set_parquet, IO.log, except_Exception, except_RequestException
    in E.

Ltac cache_paths E :=
  cache_unfold_in E; cbn in E;
  repeat (match type of E with
          | context [match ?x with _ => _ end] =>
              lazymatch x with
              | context [match _ with _ => _ end] => fail
              | _ => destruct x eqn:?
              end
          end; cbn in E);
  injection E as <- <-.

Ltac new_events :=
  cbn [snd trace parquet]; rewrite <- ?app_assoc;
  rewrite ?drop_app_length, ?drop_all; cbn.

(** X19. A call writes the parquet file at most once and never with an
    empty table: the table written is the non-empty list the download
    gave, and a call that writes nothing leaves the file as it was. *)
Theorem load_airports_once_writes (force_refresh : bool) (w : World) :
  match tables_written
          (drop (length (trace w))
                (trace (snd (load_airports_once force_refresh w)))) with
  | [] => parquet (snd (load_airports_once force_refresh w)) = parquet w
  | [airports] => airports <> [] /\ fetch_and_normalize w = Ok airports
  | _ => False
  end.
Proof.
  destruct w as [cache max_km file now net dsk tr].
  destruct (load_airports_once force_refresh _) as [res w'] eqn:E.
  cache_paths E.
  all: new_events; try reflexivity.
  all: unfold fetch_and_normalize; cbn; cache_subst; cbn.
  all: split; [intros ->; discriminate | cache_subst; reflexivity].
Qed.

(** X20. The requests of a call. A call that stops at the cache slot or at
    a fresh parquet file makes none. Otherwise it asks the primary source,
    and the fallback source exactly when the primary request failed or gave
    an empty text; no request is repeated. *)
Theorem load_airports_once_requests (force_refresh : bool) (w : World) :
  urls_requested
    (drop (length (trace w))
          (trace (snd (load_airports_once force_refresh w))))
  = if reaches_download force_refresh w then
      if Str.opt_truthy (http w OURAIRPORTS_PRIMARY)
      then [OURAIRPORTS_PRIMARY]
      else [OURAIRPORTS_PRIMARY; OURAIRPORTS_FALLBACK]
    else [].
Proof.
  destruct w as [cache max_km file now net dsk tr].
  destruct (load_airports_once force_refresh _) as [res w'] eqn:E.
  destruct force_refresh, cache as [|a0 cache].
  all: cache_paths E.
  all: new_events.
  all: unfold reaches_download, fresh_and_readable, Res.is_ok; cbn.
  all: cache_subst; cbn; try reflexivity; try discriminate.
Qed.
